(** * demo_all_px_templates.py: the template comparison report

    A shallow embedding of [src/demo_all_px_templates.py] and the
    properties of its report.  The script walks the table of Plotly
    Express functions, renders every eligible one with and without a
    custom template, and writes one HTML page with the embedded images.

    Conventions of the embedding:
    - Python [str] values are [string]s of bytes (UTF-8); every literal
      of the script but one check mark is ASCII;
    - [bytes] are [list byte];
    - the charting, data-frame and array libraries are a record of
      operations ([Library]); calls that the script guards with
      [try]/[except] return a [result];
    - exceptions are instances of [Exception]; the data sets of
      [get_plot_args] are taken as loaded and [print] as writing its
      text.  The module [Signals] embeds [get_plot_args] and
      [create_plot_comparison] once more, with data calls that can raise
      and with the signals that [except Exception] does not catch
      (KeyboardInterrupt, SystemExit);
    - the console, the random generator and the file system are the
      fields of an explicit [World] threaded through a state and error
      monad. *)

From Stdlib Require Import String Ascii List Bool Arith NArith ZArith Lia.
From Stdlib.Strings Require Import Byte.
From Stdlib Require Import DecimalString.
Import ListNotations.

Open Scope list_scope.
Open Scope string_scope.

Set Warnings "-register-all".

(** ** Python string operations (ASCII)

    The case operations change the letters a-z and A-Z and leave every
    other byte as it is; on ASCII text they are Python's, which follows
    the case mapping of Unicode on other characters. *)

Module PyStr.

Definition nl : string := String "010"%char EmptyString.
Definition dq : string := String "034"%char EmptyString.

(** [q s] is [s] between double quotes. *)
Definition q (s : string) : string := dq ++ s ++ dq.

(** [s * n] *)
Fixpoint repeat_str (s : string) (n : nat) : string :=
  match n with
  | O => EmptyString
  | S n' => s ++ repeat_str s n'
  end.

(** [format(s, "30")]: left-justified in a field of [width]. *)
Definition ljust (s : string) (width : nat) : string :=
  s ++ repeat_str " " (width - String.length s).

Definition is_upper (c : ascii) : bool :=
  let n := nat_of_ascii c in (65 <=? n)%nat && (n <=? 90)%nat.

Definition is_lower (c : ascii) : bool :=
  let n := nat_of_ascii c in (97 <=? n)%nat && (n <=? 122)%nat.

Definition is_cased (c : ascii) : bool := is_upper c || is_lower c.

Definition upper (c : ascii) : ascii :=
  if is_lower c then ascii_of_nat (nat_of_ascii c - 32) else c.

Definition lower (c : ascii) : ascii :=
  if is_upper c then ascii_of_nat (nat_of_ascii c + 32) else c.

Fixpoint map_str (f : ascii -> ascii) (s : string) : string :=
  match s with
  | EmptyString => EmptyString
  | String c s' => String (f c) (map_str f s')
  end.

(** [s.replace(a, b)] for one-character [a] and [b]. *)
Definition replace_char (a b : ascii) (s : string) : string :=
  map_str (fun c => if Ascii.eqb c a then b else c) s.

(** [s.title()]: a cased character is put in upper case when the
    character before it is not cased, in lower case otherwise. *)
Fixpoint title_from (prev_cased : bool) (s : string) : string :=
  match s with
  | EmptyString => EmptyString
  | String c s' =>
      if is_cased c
      then String (if prev_cased then lower c else upper c) (title_from true s')
      else String c (title_from false s')
  end.

Definition title (s : string) : string := title_from false s.

(** [s.capitalize()] *)
Definition capitalize (s : string) : string :=
  match s with
  | EmptyString => EmptyString
  | String c s' => String (upper c) (map_str lower s')
  end.

(** [str(n)] for a non-negative integer. *)
Definition str_of_nat (n : nat) : string :=
  NilZero.string_of_uint (Nat.to_uint n).

(** Number of positions of [s] at which [m] occurs. *)
Fixpoint count_sub (m s : string) : nat :=
  match s with
  | EmptyString => 0
  | String _ s' => (if String.prefix m s then 1 else 0) + count_sub m s'
  end.

(** [m in s] for a non-empty [m]. *)
Definition contains (m s : string) : bool := (0 <? count_sub m s)%nat.

(** No occurrence of [m] in [x ++ y] starts in [x] and ends in [y]: every
    non-empty suffix of [x] either starts with [m] or differs from [m]
    at some position. *)
Fixpoint boundary_free (m x : string) : bool :=
  match x with
  | EmptyString => true
  | String _ x' =>
      (String.prefix m x || negb (String.prefix x m)) && boundary_free m x'
  end.

(** [s.isascii()] *)
Fixpoint is_ascii (s : string) : bool :=
  match s with
  | EmptyString => true
  | String c s' => (nat_of_ascii c <? 128)%nat && is_ascii s'
  end.

(** [c in s] for a character. *)
Fixpoint has_char (c : ascii) (s : string) : bool :=
  match s with
  | EmptyString => false
  | String d s' => Ascii.eqb c d || has_char c s'
  end.

End PyStr.

(** ** base64.b64encode (RFC 4648, standard alphabet, with padding) *)

Module Base64.

Definition alphabet : list ascii :=
  list_ascii_of_string
    "ABCDEFGHIJKLMNOPQRSTUVWXYZabcdefghijklmnopqrstuvwxyz0123456789+/".

Definition sextet (n : N) : ascii :=
  nth (N.to_nat (N.land n 63)) alphabet "/"%char.

Definition pad : ascii := "="%char.

Fixpoint encode (bs : list byte) : list ascii :=
  match bs with
  | [] => []
  | [a] =>
      let x := Byte.to_N a in
      [sextet (N.shiftr x 2); sextet (N.shiftl x 4); pad; pad]
  | [a; b] =>
      let x := Byte.to_N a in
      let y := Byte.to_N b in
      [sextet (N.shiftr x 2);
       sextet (N.lor (N.shiftl x 4) (N.shiftr y 4));
       sextet (N.shiftl y 2); pad]
  | a :: b :: c :: rest =>
      let x := Byte.to_N a in
      let y := Byte.to_N b in
      let z := Byte.to_N c in
      sextet (N.shiftr x 2)
      :: sextet (N.lor (N.shiftl x 4) (N.shiftr y 4))
      :: sextet (N.lor (N.shiftl y 2) (N.shiftr z 6))
      :: sextet z
      :: encode rest
  end.

(** The characters an encoded text is made of. *)
Definition b64_char (c : ascii) : bool := existsb (Ascii.eqb c) (pad :: alphabet).

(** [base64.b64encode(bs).decode('utf-8')] *)
Definition b64encode (bs : list byte) : string :=
  string_of_list_ascii (encode bs).

End Base64.

(** ** Python values, exceptions and effects *)

(** An instance of [Exception]; [str(e)] is its text. *)
Inductive exn : Type := Exception (text : string).

Definition str_of_exn (e : exn) : string :=
  match e with Exception text => text end.

Inductive result (A : Type) : Type :=
| Ok (a : A)
| Raise (e : exn).
Arguments Ok {A} a.
Arguments Raise {A} e.

Definition rbind {A B} (r : result A) (k : A -> result B) : result B :=
  match r with
  | Ok a => k a
  | Raise e => Raise e
  end.

(** [try: r  except Exception as e: h e] *)
Definition try_except {A} (r : result A) (h : exn -> result A) : result A :=
  match r with
  | Ok a => Ok a
  | Raise e => h e
  end.

Section Values.

(** Values of the numeric-array library are opaque. *)
Context {NdArray : Type}.

(** The Python values the script handles.  A value returned by a pure
    library call whose result the script only passes on (a data frame
    of [px.data], a [query], [pd.DataFrame(...)], [px.Constant(...)]) is
    kept as that call, [PLib]. *)
Inductive pyobj : Type :=
| PNone
| PBool (b : bool)
| PInt (z : Z)
| PDec (digits : Z) (places : nat)   (* a float literal, digits / 10^places *)
| PStr (s : string)
| PList (l : list pyobj)
| PDict (d : list (string * pyobj))
| PType (name : string)              (* a class, e.g. go.Scatter *)
| PInst (cls : string) (attrs : list (string * pyobj))
| PLib (fn : string) (args : list pyobj) (kw : list (string * pyobj))
| PArr (a : NdArray).

(** A dict with string keys, in insertion order. *)
Definition dict : Type := list (string * pyobj).

Fixpoint dict_get {V} (d : list (string * V)) (k : string) : option V :=
  match d with
  | [] => None
  | (k', v) :: d' => if String.eqb k' k then Some v else dict_get d' k
  end.

(** [d[k] = v]: replaces the value of an existing key in place, adds a
    new key at the end. *)
Fixpoint dict_set {V} (d : list (string * V)) (k : string) (v : V)
  : list (string * V) :=
  match d with
  | [] => [(k, v)]
  | (k', v') :: d' =>
      if String.eqb k' k then (k', v) :: d' else (k', v') :: dict_set d' k v
  end.

Definition keys {V} (d : list (string * V)) : list string := map fst d.

(** [k in s] for a set literal of strings. *)
Definition set_mem (k : string) (s : list string) : bool :=
  existsb (String.eqb k) s.

(** No string occurs twice in [l]. *)
Fixpoint distinct (l : list string) : bool :=
  match l with
  | [] => true
  | k :: l' => negb (set_mem k l') && distinct l'
  end.

(** [bool(v)] *)
Definition truthy (v : pyobj) : bool :=
  match v with
  | PNone => false
  | PBool b => b
  | PInt z => negb (Z.eqb z 0)
  | PDec digits _ => negb (Z.eqb digits 0)
  | PStr s => negb (String.eqb s "")
  | PList l => match l with [] => false | _ => true end
  | PDict d => match d with [] => false | _ => true end
  | PType _ | PInst _ _ | PLib _ _ _ | PArr _ => true
  end.

(** [hasattr(v, name)]; only instances carry attributes here. *)
Definition hasattr (v : pyobj) (name : string) : bool :=
  match v with
  | PInst _ attrs =>
      match dict_get attrs name with Some _ => true | None => false end
  | _ => false
  end.

(** [v.name] *)
Definition getattr (v : pyobj) (name : string) : result pyobj :=
  match v with
  | PInst _ attrs =>
      match dict_get attrs name with
      | Some a => Ok a
      | None => Raise (Exception ("object has no attribute '" ++ name ++ "'"))
      end
  | _ => Raise (Exception ("object has no attribute '" ++ name ++ "'"))
  end.

(** [setattr(v, name, a)] *)
Definition setattr (v : pyobj) (name : string) (a : pyobj) : result pyobj :=
  match v with
  | PInst cls attrs => Ok (PInst cls (dict_set attrs name a))
  | _ => Raise (Exception ("object has no attribute '" ++ name ++ "'"))
  end.

(** [isinstance(v, type)] *)
Definition isinstance_type (v : pyobj) : bool :=
  match v with PType _ => true | _ => false end.

(** [v == s] for a string literal [s]. *)
Definition eq_str (v : pyobj) (s : string) : bool :=
  match v with PStr s' => String.eqb s' s | _ => false end.

End Values.
Arguments pyobj NdArray : clear implicits.
Arguments dict NdArray : clear implicits.

(** ** The world the script runs in *)

Section Effects.

Context {Rng : Type}.

(** [console]: the texts given to [print], oldest first.
    [rng]: the state of numpy's global random generator.
    [files]: the files written, newest first. *)
Record World : Type := mkWorld {
  console : list string;
  rng : Rng;
  files : list (string * string)
}.

(** A computation reads and updates the world and returns or raises;
    the world it leaves behind is kept in both cases. *)
Definition M (A : Type) : Type := World -> result A * World.

Definition ret {A} (a : A) : M A := fun w => (Ok a, w).

Definition raise {A} (e : exn) : M A := fun w => (Raise e, w).

Definition bind {A B} (m : M A) (k : A -> M B) : M B :=
  fun w =>
    match m w with
    | (Ok a, w') => k a w'
    | (Raise e, w') => (Raise e, w')
    end.

(** A call that only returns or raises. *)
Definition lift {A} (r : result A) : M A := fun w => (r, w).

(** [try: body  except Exception as e: handler e] *)
Definition try_catch {A} (body : M A) (handler : exn -> M A) : M A :=
  fun w =>
    match body w with
    | (Ok a, w') => (Ok a, w')
    | (Raise e, w') => handler e w'
    end.

(** [print(text)]: the text goes to the console. *)
Definition print (text : string) : M unit :=
  fun w => (Ok tt, mkWorld (console w ++ [text])%list (rng w) (files w)).

(** [for x in xs: acc = body acc x] *)
Fixpoint for_each {A S} (xs : list A) (body : S -> A -> M S) (acc : S) : M S :=
  match xs with
  | [] => ret acc
  | x :: xs' => bind (body acc x) (for_each xs' body)
  end.

End Effects.
Arguments World Rng : clear implicits.
Arguments M Rng A : clear implicits.

Declare Scope py_scope.
Delimit Scope py_scope with py.
Notation "x <- m ;; k" := (bind m (fun x => k))
  (at level 61, m at next level, right associativity) : py_scope.
Notation "m ;; k" := (bind m (fun _ => k))
  (at level 61, right associativity) : py_scope.
Notation "x <-- r ;; k" := (rbind r (fun x => k))
  (at level 61, r at next level, right associativity) : py_scope.

(** ** The libraries the script calls *)

Section Script.

Context {Figure NdArray Rng : Type}.

Local Abbreviation pyobj := (pyobj NdArray).
Local Abbreviation dict := (dict NdArray).
Local Abbreviation M := (M Rng).

Local Open Scope py_scope.

(** The operations of plotly, numpy and the file system that decide
    what the script does.  Each is a function of its arguments: the
    libraries keep no state of their own but numpy's generator. *)
Record Library : Type := mkLibrary {
  (** [px.<name>( **kwargs )] *)
  px : string -> dict -> result Figure;
  (** [<class>( **kwargs )] for the class of that name, e.g. [go.Bar] *)
  new : string -> dict -> result pyobj;
  (** [pio.templates["plotly"]] *)
  pio_templates_plotly : pyobj;
  (** [pio.templates.merge_templates(a, b)] *)
  merge_templates : pyobj -> pyobj -> result pyobj;
  (** [fig.write_image(buffer, format, width, height, scale)]:
      the bytes left in the buffer *)
  write_image : Figure -> string -> Z -> Z -> Z -> result (list byte);
  (** [np.random.rand(rows, cols)] *)
  np_random_rand : nat -> nat -> Rng -> NdArray * Rng;
  (** [open(path, "w")] and [f.write(text)]: the exception raised, if any *)
  write_text : string -> string -> option exn
}.

Variable lib : Library.

(** [go.<name>] *)
Definition go (name : string) : pyobj := PType name.

(** [f( **kwargs )] *)
Definition call (f : pyobj) (kwargs : dict) : result pyobj :=
  match f with
  | PType name => new lib name kwargs
  | _ => Raise (Exception "object is not callable")
  end.

(** [for x in xs: acc = body acc x] for a body without effects. *)
Fixpoint rfor_each {A S} (xs : list A) (body : S -> A -> result S) (acc : S)
  : result S :=
  match xs with
  | [] => Ok acc
  | x :: xs' => rbind (body acc x) (rfor_each xs' body)
  end.

(** ** Configuration: the px functions, their constructors and trace types *)

Definition px_function : Type := dict -> result Figure.

Definition PX_FUNCTIONS : list (string * (px_function * pyobj * string)) := [
  (* 2D Cartesian plots *)
  ("scatter", (px lib "scatter", go "Scatter", "scatter"));
  ("line", (px lib "line", go "Scatter", "scatter"));
  ("area", (px lib "area", go "Scatter", "scatter"));
  ("bar", (px lib "bar", go "Bar", "bar"));
  ("timeline", (px lib "timeline", PStr "timeline", "bar"));
  ("histogram", (px lib "histogram", go "Histogram", "histogram"));
  ("ecdf", (px lib "ecdf", go "Scatter", "scatter"));
  ("violin", (px lib "violin", go "Violin", "violin"));
  ("box", (px lib "box", go "Box", "box"));
  ("strip", (px lib "strip", go "Box", "box"));
  (* 3D plots *)
  ("scatter_3d", (px lib "scatter_3d", go "Scatter3d", "scatter3d"));
  ("line_3d", (px lib "line_3d", go "Scatter3d", "scatter3d"));
  (* Ternary plots *)
  ("scatter_ternary",
   (px lib "scatter_ternary", go "Scatterternary", "scatterternary"));
  ("line_ternary",
   (px lib "line_ternary", go "Scatterternary", "scatterternary"));
  (* Polar plots *)
  ("scatter_polar", (px lib "scatter_polar", go "Scatterpolar", "scatterpolar"));
  ("line_polar", (px lib "line_polar", go "Scatterpolar", "scatterpolar"));
  ("bar_polar", (px lib "bar_polar", go "Barpolar", "barpolar"));
  (* Geographic plots *)
  ("scatter_geo", (px lib "scatter_geo", go "Scattergeo", "scattergeo"));
  ("line_geo", (px lib "line_geo", go "Scattergeo", "scattergeo"));
  ("choropleth", (px lib "choropleth", go "Choropleth", "choropleth"));
  (* Map plots *)
  ("scatter_map", (px lib "scatter_map", go "Scattermap", "scattermap"));
  ("line_map", (px lib "line_map", go "Scattermap", "scattermap"));
  ("choropleth_map",
   (px lib "choropleth_map", go "Choroplethmap", "choroplethmap"));
  ("density_map", (px lib "density_map", go "Densitymap", "densitymap"));
  (* Mapbox plots *)
  ("scatter_mapbox",
   (px lib "scatter_mapbox", go "Scattermapbox", "scattermapbox"));
  ("line_mapbox", (px lib "line_mapbox", go "Scattermapbox", "scattermapbox"));
  ("choropleth_mapbox",
   (px lib "choropleth_mapbox", go "Choroplethmapbox", "choroplethmapbox"));
  ("density_mapbox",
   (px lib "density_mapbox", go "Densitymapbox", "densitymapbox"));
  (* Special plots *)
  ("scatter_matrix", (px lib "scatter_matrix", go "Splom", "splom"));
  ("parallel_coordinates",
   (px lib "parallel_coordinates", go "Parcoords", "parcoords"));
  ("parallel_categories",
   (px lib "parallel_categories", go "Parcats", "parcats"));
  (* Statistical plots *)
  ("density_contour",
   (px lib "density_contour", go "Histogram2dContour", "histogram2dcontour"));
  ("density_heatmap",
   (px lib "density_heatmap", go "Histogram2d", "histogram2d"));
  (* Hierarchical plots *)
  ("pie", (px lib "pie", go "Pie", "pie"));
  ("sunburst", (px lib "sunburst", go "Sunburst", "sunburst"));
  ("treemap", (px lib "treemap", go "Treemap", "treemap"));
  ("icicle", (px lib "icicle", go "Icicle", "icicle"));
  ("funnel", (px lib "funnel", go "Funnel", "funnel"));
  ("funnel_area", (px lib "funnel_area", go "Funnelarea", "funnelarea"));
  (* Image *)
  ("imshow", (px lib "imshow", go "Image", "image"))
].

(** ** Template creation *)

Definition template_colors : list string := ["purple"; "lime"; "magenta"].

Definition trace_constructors : list (string * pyobj) := [
  ("scatter", go "Scatter");
  ("bar", go "Bar");
  ("histogram", go "Histogram");
  ("box", go "Box");
  ("violin", go "Violin");
  ("scatter3d", go "Scatter3d");
  ("scatterternary", go "Scatterternary");
  ("scatterpolar", go "Scatterpolar");
  ("barpolar", go "Barpolar");
  ("scattergeo", go "Scattergeo");
  ("scattermap", go "Scattermap");
  ("funnel", go "Funnel");
  ("splom", go "Splom")
].

(** [go.layout.Template()]: a template with nothing set. *)
Definition Template_new : pyobj :=
  PInst "Template" [("data", PInst "Data" []); ("layout", PInst "Layout" [])].

(** [marker=dict(color=color)] *)
Definition marker_kwargs (color : string) : dict :=
  [("marker", PDict [("color", PStr color)])].

(** [setattr(template.data, trace_type, trace_list)]; [template.data] is
    shared with [template], which sees the new attribute. *)
Definition setattr_data (template : pyobj) (trace_type : string)
  (trace_list : pyobj) : result pyobj :=
  data <-- getattr template "data" ;;
  data' <-- setattr data trace_type trace_list ;;
  setattr template "data" data'.

Definition create_comprehensive_template : result pyobj :=
  let default_template := pio_templates_plotly lib in
  let custom_template := Template_new in
  custom_template <--
    rfor_each trace_constructors
      (fun custom_template '(trace_type, constructor) =>
         trace_list <--
           rfor_each template_colors
             (fun trace_list color =>
                trace <-- call constructor (marker_kwargs color) ;;
                Ok (trace_list ++ [trace])%list)
             [] ;;
         setattr_data custom_template trace_type (PList trace_list))
      custom_template ;;
  merge_templates lib default_template custom_template.

(** ** Helper functions *)

Definition test_trace_supports_marker_color (constructor : pyobj) : bool :=
  let probe (trace : pyobj) : result bool :=
    if hasattr trace "marker"
    then marker <-- getattr trace "marker" ;; Ok (hasattr marker "color")
    else Ok false in
  match
    try_except
      (if eq_str constructor "timeline" then
         trace <-- call (go "Bar") (marker_kwargs "red") ;; probe trace
       else if isinstance_type constructor then
         trace <-- call constructor (marker_kwargs "red") ;; probe trace
       else Ok false)
      (fun _ => Ok false)
  with
  | Ok b => b
  | Raise _ => false
  end.

Definition constructor_map : list (string * string) := [
  ("scatter", "Scatter");
  ("bar", "Bar");
  ("histogram", "Histogram");
  ("box", "Box");
  ("violin", "Violin");
  ("scatter3d", "Scatter3d");
  ("scatterternary", "Scatterternary");
  ("scatterpolar", "Scatterpolar");
  ("barpolar", "Barpolar");
  ("scattergeo", "Scattergeo");
  ("scattermap", "Scattermap");
  ("funnel", "Funnel");
  ("splom", "Splom")
].

Definition get_constructor_name (trace_type : string) : string :=
  match dict_get constructor_map trace_type with
  | Some name => name
  | None => PyStr.capitalize trace_type
  end.

(** ** Plot data configuration *)

(** [px.data.<name>()] *)
Definition px_data (name : string) : pyobj := PLib ("px.data." ++ name) [] [].

(** [df.query(expr)] *)
Definition query (df : pyobj) (expr : string) : pyobj :=
  PLib "DataFrame.query" [df; PStr expr] [].

(** [df.head(n)] *)
Definition head (df : pyobj) (n : Z) : pyobj :=
  PLib "DataFrame.head" [df; PInt n] [].

(** [pd.DataFrame(data)] *)
Definition pd_DataFrame (data : pyobj) : pyobj := PLib "pd.DataFrame" [data] [].

(** [px.Constant(label)] *)
Definition px_Constant (label : string) : pyobj :=
  PLib "px.Constant" [PStr label] [].

Definition strs (l : list string) : pyobj := PList (map PStr l).

Definition funnel_stages : list string :=
  ["Website visit"; "Downloads"; "Potential customers"; "Requested price";
   "invoice sent"].

(** The dict literal of [get_plot_args]; [img] is the array that
    [np.random.rand(10, 10)] returns while the literal is built. *)
Definition args_map (img : pyobj) : list (string * pyobj) :=
  let tips := px_data "tips" in
  let iris := px_data "iris" in
  let gapminder := query (px_data "gapminder") "year == 2007" in
  let df_line :=
    query (px_data "gapminder") "country in ['Canada', 'Botswana', 'Brazil']" in
  let wind := px_data "wind" in
  let election := px_data "election" in
  let hierarchy :=
    PDict [("data_frame", tips);
           ("path", PList [px_Constant "all"; PStr "sex"; PStr "day"; PStr "time"]);
           ("values", PStr "total_bill");
           ("color", PStr "day")] in
  [
  (* 2D Cartesian *)
  ("scatter", PDict [("data_frame", iris); ("x", PStr "sepal_width");
                     ("y", PStr "sepal_length"); ("color", PStr "species")]);
  ("line", PDict [("data_frame", df_line); ("x", PStr "year");
                  ("y", PStr "lifeExp"); ("color", PStr "country")]);
  ("area", PDict [("data_frame", df_line); ("x", PStr "year");
                  ("y", PStr "lifeExp"); ("color", PStr "country")]);
  ("bar", PDict [("data_frame", tips); ("x", PStr "day");
                 ("y", PStr "total_bill"); ("color", PStr "sex")]);
  ("timeline",
   PDict [("data_frame",
           pd_DataFrame (PList [
             PDict [("Task", PStr "Job A"); ("Start", PStr "2009-01-01");
                    ("Finish", PStr "2009-02-28"); ("Resource", PStr "Alex")];
             PDict [("Task", PStr "Job B"); ("Start", PStr "2009-03-05");
                    ("Finish", PStr "2009-04-15"); ("Resource", PStr "Alex")];
             PDict [("Task", PStr "Job C"); ("Start", PStr "2009-02-20");
                    ("Finish", PStr "2009-05-30"); ("Resource", PStr "Max")]]));
          ("x_start", PStr "Start");
          ("x_end", PStr "Finish");
          ("y", PStr "Resource");
          ("color", PStr "Resource")]);
  ("histogram", PDict [("data_frame", tips); ("x", PStr "total_bill");
                       ("color", PStr "sex")]);
  ("ecdf", PDict [("data_frame", tips); ("x", PStr "total_bill");
                  ("color", PStr "sex")]);
  ("violin", PDict [("data_frame", tips); ("x", PStr "day");
                    ("y", PStr "total_bill"); ("color", PStr "sex")]);
  ("box", PDict [("data_frame", tips); ("x", PStr "day");
                 ("y", PStr "total_bill"); ("color", PStr "sex")]);
  ("strip", PDict [("data_frame", tips); ("x", PStr "day");
                   ("y", PStr "total_bill"); ("color", PStr "sex")]);
  (* 3D *)
  ("scatter_3d", PDict [("data_frame", iris); ("x", PStr "sepal_length");
                        ("y", PStr "sepal_width"); ("z", PStr "petal_length");
                        ("color", PStr "species")]);
  ("line_3d", PDict [("data_frame", iris); ("x", PStr "sepal_length");
                     ("y", PStr "sepal_width"); ("z", PStr "petal_length");
                     ("color", PStr "species")]);
  (* Ternary *)
  ("scatter_ternary", PDict [("data_frame", election); ("a", PStr "Joly");
                             ("b", PStr "Coderre"); ("c", PStr "Bergeron");
                             ("color", PStr "winner")]);
  ("line_ternary", PDict [("data_frame", election); ("a", PStr "Joly");
                          ("b", PStr "Coderre"); ("c", PStr "Bergeron");
                          ("color", PStr "winner")]);
  (* Polar *)
  ("scatter_polar", PDict [("data_frame", wind); ("r", PStr "frequency");
                           ("theta", PStr "direction");
                           ("color", PStr "strength")]);
  ("line_polar", PDict [("data_frame", wind); ("r", PStr "frequency");
                        ("theta", PStr "direction");
                        ("color", PStr "strength");
                        ("line_close", PBool true)]);
  ("bar_polar", PDict [("data_frame", wind); ("r", PStr "frequency");
                       ("theta", PStr "direction");
                       ("color", PStr "strength")]);
  (* Geographic *)
  ("scatter_geo", PNone);
  ("line_geo", PNone);
  ("choropleth", PDict [("data_frame", gapminder);
                        ("locations", PStr "iso_alpha");
                        ("color", PStr "lifeExp");
                        ("hover_name", PStr "country")]);
  (* Map *)
  ("scatter_map", PNone);
  ("line_map", PNone);
  ("choropleth_map", PDict [("data_frame", gapminder); ("geojson", PNone);
                            ("locations", PStr "iso_alpha");
                            ("color", PStr "lifeExp")]);
  ("density_map", PNone);
  (* Mapbox *)
  ("scatter_mapbox", PNone);
  ("line_mapbox", PNone);
  ("choropleth_mapbox", PDict [("data_frame", gapminder); ("geojson", PNone);
                               ("locations", PStr "iso_alpha");
                               ("color", PStr "lifeExp")]);
  ("density_mapbox", PNone);
  (* Special *)
  ("scatter_matrix",
   PDict [("data_frame", iris);
          ("dimensions", strs ["sepal_width"; "sepal_length"; "petal_width"]);
          ("color", PStr "species")]);
  ("parallel_coordinates",
   PDict [("data_frame", iris);
          ("dimensions", strs ["sepal_width"; "sepal_length"; "petal_width"]);
          ("color", PStr "species")]);
  ("parallel_categories",
   PDict [("data_frame", head tips 20);
          ("dimensions", strs ["sex"; "smoker"; "day"]);
          ("color", PStr "time")]);
  (* Statistical *)
  ("density_contour", PDict [("data_frame", tips); ("x", PStr "total_bill");
                             ("y", PStr "tip"); ("color", PStr "sex")]);
  ("density_heatmap", PDict [("data_frame", tips); ("x", PStr "total_bill");
                             ("y", PStr "tip")]);
  (* Hierarchical *)
  ("pie", PDict [("data_frame", tips); ("names", PStr "day");
                 ("values", PStr "total_bill")]);
  ("sunburst", hierarchy);
  ("treemap", hierarchy);
  ("icicle", hierarchy);
  ("funnel",
   PDict [("data_frame",
           PLib "pd.concat"
             [PList [
                pd_DataFrame (PDict [
                  ("number", PList [PInt 39; PDec 274 1; PDec 206 1;
                                    PInt 11; PInt 3]);
                  ("stage", strs funnel_stages);
                  ("office", PList (repeat (PStr "Montreal") 5))]);
                pd_DataFrame (PDict [
                  ("number", PList [PInt 52; PInt 36; PInt 18; PInt 14; PInt 5]);
                  ("stage", strs funnel_stages);
                  ("office", PList (repeat (PStr "Toronto") 5))])]]
             [("axis", PInt 0)]);
          ("x", PStr "number");
          ("y", PStr "stage");
          ("color", PStr "office")]);
  ("funnel_area",
   PDict [("names", strs ["The 1st"; "The 2nd"; "The 3rd"; "The 4th"; "The 5th"]);
          ("values", PList [PInt 5; PInt 4; PInt 3; PInt 2; PInt 1])]);
  (* Image *)
  ("imshow", PDict [("img", img)])
  ].

(** [np.random.rand(10, 10)] draws from the generator of the world. *)
Definition random_rand (rows cols : nat) : M pyobj :=
  fun w =>
    let '(a, g) := np_random_rand lib rows cols (rng w) in
    (Ok (PArr a), mkWorld (console w) g (files w)).

(** The data calls are taken to return; [Signals.get_plot_args] below
    has them raise. *)
Definition get_plot_args (px_name : string) (px_fn : px_function) : M pyobj :=
  img <- random_rand 10 10 ;;
  ret (match dict_get (args_map img) px_name with
       | Some args => args
       | None => PDict []
       end).

(** ** Validation functions *)

Definition no_discrete : list string := [
  "density_heatmap";
  "density_map";
  "density_mapbox";
  "choropleth";
  "choropleth_map";
  "choropleth_mapbox";
  "imshow";
  "parallel_coordinates";
  "parallel_categories"
].

Definition can_use_discrete_colors (px_name : string) (px_fn : px_function)
  (constructor : pyobj) (trace_type : string) : bool * option string :=
  if set_mem px_name no_discrete then
    (false, Some "Does not support discrete colors")
  else if negb (test_trace_supports_marker_color constructor) then
    (false, Some "Trace type does not have marker.color attribute")
  else (true, None).

(** ** Plot generation *)

(** [px_fn( **args )] *)
Definition call_px (px_fn : px_function) (args : pyobj) : result Figure :=
  match args with
  | PDict kwargs => px_fn kwargs
  | _ => Raise (Exception "argument after ** must be a mapping")
  end.

(** [args.copy()] and [args_with_template["template"] = template] *)
Definition with_template (args template : pyobj) : result pyobj :=
  match args with
  | PDict kwargs => Ok (PDict (dict_set kwargs "template" template))
  | _ => Raise (Exception "object has no attribute 'copy'")
  end.

Definition create_plot_comparison (px_name : string) (px_fn : px_function)
  (constructor : pyobj) (trace_type : string) (template : pyobj)
  : M (option (Figure * Figure) * option string) :=
  args <- get_plot_args px_name px_fn ;;
  match args with
  | PNone => ret (None, Some ("No test data configured for " ++ px_name))
  | _ =>
      if negb (truthy args) then
        ret (None, Some ("Missing required arguments for " ++ px_name))
      else
        try_catch
          (fig_no_template <- lift (call_px px_fn args) ;;
           args_with_template <- lift (with_template args template) ;;
           fig_with_template <- lift (call_px px_fn args_with_template) ;;
           ret (Some (fig_no_template, fig_with_template), None))
          (fun e => ret (None, Some (str_of_exn e)))
  end.

(** ** HTML generation *)

Import PyStr.

Definition generate_template_code_display (trace_type : string) : string :=
  let template_colors := ["purple"; "lime"; "magenta"] in
  let constructor_name := get_constructor_name trace_type in
  let code := "template.data." ++ trace_type ++ " = [" ++ nl in
  let code :=
    fold_left
      (fun code color =>
         code ++ "    go." ++ constructor_name ++ "(marker=dict(color="
              ++ q color ++ "))," ++ nl)
      template_colors code in
  code ++ "]".

Definition html_head : string :=
  Eval vm_compute in String.concat nl [
    "";
    "<!DOCTYPE html>";
    "<html>";
    "<head>";
    "    <title>Plotly Express Template Color Demonstration</title>";
    "    <style>";
    "        body {";
    "            font-family: Arial, sans-serif;";
    "            max-width: 1400px;";
    "            margin: 0 auto;";
    "            padding: 20px;";
    "            background-color: #f5f5f5;";
    "        }";
    "        h1 {";
    "            color: #333;";
    "            text-align: center;";
    "        }";
    "        .plot-section {";
    "            background-color: white;";
    "            padding: 20px;";
    "            margin-bottom: 20px;";
    "            border-radius: 5px;";
    "        }";
    "        .plot-container {";
    "            display: flex;";
    "            gap: 20px;";
    "            margin-top: 15px;";
    "        }";
    "        .plot-box {";
    "            flex: 1;";
    "            text-align: center;";
    "        }";
    "        .plot-box h3 {";
    "            margin-top: 0;";
    "            color: #666;";
    "        }";
    "        img {";
    "            max-width: 100%;";
    "            height: auto;";
    "        }";
    "        pre {";
    "            margin-top: 15px;";
    "            padding: 10px;";
    "            background-color: #f9f9f9;";
    "            border-radius: 4px;";
    "            font-size: 12px;";
    "            overflow-x: auto;";
    "        }";
    "        code {";
    "            font-family: 'Courier New', monospace;";
    "        }";
    "    </style>";
    "</head>";
    "<body>";
    "    <h1>Plotly Express Template Color Demonstration</h1>";
    ""
  ].

(** The section appended for one plot kind. *)
Definition plot_section (px_name img_base64_no img_base64_with template_code
  : string) : string :=
  nl ++
  "        <div class=" ++ q "plot-section" ++ ">" ++ nl ++
  "            <h3>" ++ title (replace_char "_" " " px_name) ++ "</h3>" ++ nl ++
  "            <div class=" ++ q "plot-container" ++ ">" ++ nl ++
  "                <div class=" ++ q "plot-box" ++ ">" ++ nl ++
  "                    <h3>Without Template</h3>" ++ nl ++
  "                    <img src=" ++ dq ++ "data:image/png;base64," ++ img_base64_no ++ dq ++
    " alt=" ++ dq ++ px_name ++ " without template" ++ dq ++ ">" ++ nl ++
  "                </div>" ++ nl ++
  "                <div class=" ++ q "plot-box" ++ ">" ++ nl ++
  "                    <h3>With Template</h3>" ++ nl ++
  "                    <img src=" ++ dq ++ "data:image/png;base64," ++ img_base64_with ++ dq ++
    " alt=" ++ dq ++ px_name ++ " with template" ++ dq ++ ">" ++ nl ++
  "                    <pre style=" ++
    q "margin-top: 15px; padding: 10px; background-color: #f9f9f9; border-radius: 4px; font-size: 12px; overflow-x: auto; text-align: left;" ++
    "><code>" ++ template_code ++ "</code></pre>" ++ nl ++
  "                </div>" ++ nl ++
  "            </div>" ++ nl ++
  "        </div>" ++ nl ++
  "        ".

Definition html_tail : string :=
  Eval vm_compute in String.concat nl [""; "    </body>"; "    </html>"; "    "].

Definition works_item : Type := string * (Figure * Figure) * string.

(** [fig.write_image(buffer, format='png', width=700, height=500, scale=2)],
    [buffer.seek(0)], [base64.b64encode(buffer.read()).decode('utf-8')] *)
Definition embedded_png (fig : Figure) : result string :=
  png <-- write_image lib fig "png" 700 500 2 ;;
  Ok (Base64.b64encode png).

(** The body of the loop of [generate_html_content]. *)
Definition html_body (html_content : string) (item : works_item) : M string :=
  let '(px_name, (fig_no, fig_with), trace_type) := item in
  try_catch
    (img_base64_no <- lift (embedded_png fig_no) ;;
     img_base64_with <- lift (embedded_png fig_with) ;;
     print ("    Generated embedded images for " ++ px_name) ;;
     let template_code := generate_template_code_display trace_type in
     ret (html_content
          ++ plot_section px_name img_base64_no img_base64_with template_code))
    (fun e =>
       print ("    Warning: Could not generate images for " ++ px_name ++ ": "
              ++ str_of_exn e) ;;
       ret html_content).

Definition generate_html_content (works_with_template : list works_item)
  : M string :=
  html_content <- for_each works_with_template html_body html_head ;;
  ret (html_content ++ html_tail).

(** ** Main function *)

(** U+2713 in UTF-8. *)
Definition check_mark : string :=
  String "226"%char (String "156"%char (String "147"%char EmptyString)).

(** The body of the loop of [main]. *)
Definition main_body (template : pyobj) (works_with_template : list works_item)
  (entry : string * (px_function * pyobj * string)) : M (list works_item) :=
  let '(px_name, (px_fn, constructor, trace_type)) := entry in
  let '(can_use, reason) :=
    can_use_discrete_colors px_name px_fn constructor trace_type in
  if can_use then
    outcome <-
      create_plot_comparison px_name px_fn constructor trace_type template ;;
    let '(result, error) := outcome in
    match result with
    | Some figs =>
        print (check_mark ++ " " ++ ljust px_name 30
               ++ " - Works (uses template.data." ++ trace_type ++ ")") ;;
        ret (works_with_template ++ [(px_name, figs, trace_type)])%list
    | None => ret works_with_template
    end
  else ret works_with_template.

(** [with open(path, "w") as f: f.write(text)].  When the block raises,
    the files are kept as they were: what [open] did to the file before
    [f.write] raised is not part of the world. *)
Definition write_file (path text : string) : M unit :=
  fun w =>
    match write_text lib path text with
    | None => (Ok tt, mkWorld (console w) (rng w) ((path, text) :: files w))
    | Some e => (Raise e, w)
    end.

(** The loop of [main] over the table, from an empty list. *)
Definition main_loop (template : pyobj) : M (list works_item) :=
  for_each PX_FUNCTIONS (main_body template) [].

Definition main : M unit :=
  print (repeat_str "=" 80) ;;
  print "Comprehensive Plotly Express Template Color Demonstration" ;;
  print (repeat_str "=" 80) ;;
  template <- lift create_comprehensive_template ;;
  print (nl ++ "Analyzing all Plotly Express functions...") ;;
  print (repeat_str "-" 80) ;;
  works_with_template <- main_loop template ;;
  print (nl ++ repeat_str "=" 80) ;;
  print "Creating HTML file..." ;;
  html_content <- generate_html_content works_with_template ;;
  write_file "all_px_template_demo.html" html_content ;;
  print ("  " ++ check_mark ++ " Created all_px_template_demo.html") ;;
  print (nl ++ "Generated " ++ str_of_nat (List.length works_with_template)
         ++ " working comparisons") ;;
  print (nl ++ repeat_str "=" 80) ;;
  print "Complete! Open all_px_template_demo.html in a browser to see all comparisons." ;;
  print (repeat_str "=" 80).

End Script.

(** * The report as text *)

Module Report.
Import PyStr.

Definition report_path : string := "all_px_template_demo.html".

(** A section of the report opens with this tag. *)
Definition section_open : string := "<div class=" ++ q "plot-section" ++ ">".

Definition count_sections (html : string) : nat := count_sub section_open html.

(** The heading of the section of a plot kind. *)
Definition section_heading (px_name : string) : string :=
  "<h3>" ++ title (replace_char "_" " " px_name) ++ "</h3>".

(** The report has a section titled for [px_name]. *)
Definition has_section (html px_name : string) : bool :=
  contains (section_heading px_name) html.


(** The data of a section: plot kind, the two images, trace type. *)
Definition section_data : Type := string * string * string * string.

Definition render (sec : section_data) : string :=
  let '(px_name, img_base64_no, img_base64_with, trace_type) := sec in
  plot_section px_name img_base64_no img_base64_with
    (generate_template_code_display trace_type).

Definition sections_text (secs : list section_data) : string :=
  fold_right (fun sec text => render sec ++ text) "" secs.

Fixpoint filter_map {A B} (f : A -> option B) (l : list A) : list B :=
  match l with
  | [] => []
  | x :: l' =>
      match f x with
      | Some y => y :: filter_map f l'
      | None => filter_map f l'
      end
  end.

(** The plot kinds of [PX_FUNCTIONS] with their trace types. *)
Definition plot_kinds : list (string * string) := [
  ("scatter", "scatter"); ("line", "scatter"); ("area", "scatter");
  ("bar", "bar"); ("timeline", "bar"); ("histogram", "histogram");
  ("ecdf", "scatter"); ("violin", "violin"); ("box", "box");
  ("strip", "box"); ("scatter_3d", "scatter3d"); ("line_3d", "scatter3d");
  ("scatter_ternary", "scatterternary"); ("line_ternary", "scatterternary");
  ("scatter_polar", "scatterpolar"); ("line_polar", "scatterpolar");
  ("bar_polar", "barpolar"); ("scatter_geo", "scattergeo");
  ("line_geo", "scattergeo"); ("choropleth", "choropleth");
  ("scatter_map", "scattermap"); ("line_map", "scattermap");
  ("choropleth_map", "choroplethmap"); ("density_map", "densitymap");
  ("scatter_mapbox", "scattermapbox"); ("line_mapbox", "scattermapbox");
  ("choropleth_mapbox", "choroplethmapbox");
  ("density_mapbox", "densitymapbox"); ("scatter_matrix", "splom");
  ("parallel_coordinates", "parcoords"); ("parallel_categories", "parcats");
  ("density_contour", "histogram2dcontour");
  ("density_heatmap", "histogram2d"); ("pie", "pie");
  ("sunburst", "sunburst"); ("treemap", "treemap"); ("icicle", "icicle");
  ("funnel", "funnel"); ("funnel_area", "funnelarea"); ("imshow", "image")
].

Definition plot_kind_names : list string := map fst plot_kinds.

(** [plot_section] cut at its two images. *)
Definition piece1 (px_name : string) : string :=
  nl ++
  "        <div class=" ++ q "plot-section" ++ ">" ++ nl ++
  "            <h3>" ++ title (replace_char "_" " " px_name) ++ "</h3>" ++ nl ++
  "            <div class=" ++ q "plot-container" ++ ">" ++ nl ++
  "                <div class=" ++ q "plot-box" ++ ">" ++ nl ++
  "                    <h3>Without Template</h3>" ++ nl ++
  "                    <img src=" ++ dq ++ "data:image/png;base64,".

Definition piece2 (px_name : string) : string :=
  dq ++ " alt=" ++ dq ++ px_name ++ " without template" ++ dq ++ ">" ++ nl ++
  "                </div>" ++ nl ++
  "                <div class=" ++ q "plot-box" ++ ">" ++ nl ++
  "                    <h3>With Template</h3>" ++ nl ++
  "                    <img src=" ++ dq ++ "data:image/png;base64,".

Definition piece3 (px_name trace_type : string) : string :=
  dq ++ " alt=" ++ dq ++ px_name ++ " with template" ++ dq ++ ">" ++ nl ++
  "                    <pre style=" ++
    q "margin-top: 15px; padding: 10px; background-color: #f9f9f9; border-radius: 4px; font-size: 12px; overflow-x: auto; text-align: left;" ++
    "><code>" ++ generate_template_code_display trace_type ++ "</code></pre>" ++ nl ++
  "                </div>" ++ nl ++
  "            </div>" ++ nl ++
  "        </div>" ++ nl ++
  "        ".

(** The occurrences of [m] in the fixed text of the section of a plot
    kind, and whether none of them can run over an image or past the
    end of the section. *)
Definition occurrences (m px_name trace_type : string) : nat :=
  count_sub m (piece1 px_name) + count_sub m (piece2 px_name)
  + count_sub m (piece3 px_name trace_type).

Definition pieces_ok (m px_name trace_type : string) : bool :=
  boundary_free m (piece1 px_name) && boundary_free m (piece2 px_name)
  && boundary_free m (piece3 px_name trace_type).

(** The sections a run can produce: a plot kind of the table with two
    images free of the character that opens a tag. *)
Definition well_formed (sec : section_data) : Prop :=
  let '(px_name, img_base64_no, img_base64_with, trace_type) := sec in
  In (px_name, trace_type) plot_kinds
  /\ has_char "<" img_base64_no = false
  /\ has_char "<" img_base64_with = false.

Definition section_name (sec : section_data) : string :=
  let '(px_name, _, _, _) := sec in px_name.

(** [m] occurs [expected px_name] times in the section of every plot
    kind, and nowhere else in a report. *)
Definition marker_ok (m : string) (expected : string -> nat) : bool :=
  boundary_free m html_head && (count_sub m html_head =? 0)%nat
  && (count_sub m html_tail =? 0)%nat
  && forallb
       (fun kind : string * string =>
          let '(px_name, trace_type) := kind in
          pieces_ok m px_name trace_type
          && (occurrences m px_name trace_type =? expected px_name)%nat)
       plot_kinds.

Section Run.

Context {Figure NdArray Rng : Type}.
Variable lib : @Library Figure NdArray Rng.

Local Abbreviation pyobj := (pyobj NdArray).
Local Abbreviation works_item := (@works_item Figure).

(** The text [main] leaves in the report file, when it returns. *)
Definition report (w : World Rng) : option string :=
  match main lib w with
  | (Ok _, w') => dict_get (files w') report_path
  | (Raise _, _) => None
  end.

(** The array that [np.random.rand(10, 10)] returns in [w], and the
    world after the draw. *)
Definition drawn (w : World Rng) : pyobj :=
  PArr (fst (np_random_rand lib 10 10 (rng w))).

Definition after_draw (w : World Rng) : World Rng :=
  mkWorld (console w) (snd (np_random_rand lib 10 10 (rng w))) (files w).

(** The world after [texts] are printed. *)
Definition printed (w : World Rng) (texts : list string) : World Rng :=
  mkWorld (console w ++ texts)%list (rng w) (files w).

(** [args_map.get(px_name, {})] *)
Definition lookup_args (img : pyobj) (px_name : string) : pyobj :=
  match dict_get (args_map img) px_name with
  | Some args => args
  | None => PDict []
  end.

(** The two calls of [px_fn] in [create_plot_comparison]. *)
Definition build_figures (px_fn : px_function) (template args : pyobj)
  : result (Figure * Figure) :=
  (fig_no_template <-- call_px px_fn args ;;
   args_with_template <-- with_template args template ;;
   fig_with_template <-- call_px px_fn args_with_template ;;
   Ok (fig_no_template, fig_with_template))%py.

(** What [create_plot_comparison] returns once it holds [args]. *)
Definition comparison (px_name : string) (px_fn : px_function)
  (template args : pyobj) : option (Figure * Figure) * option string :=
  match args with
  | PNone => (None, Some ("No test data configured for " ++ px_name))
  | _ =>
      if negb (truthy args) then
        (None, Some ("Missing required arguments for " ++ px_name))
      else
        match build_figures px_fn template args with
        | Ok figs => (Some figs, None)
        | Raise e => (None, Some (str_of_exn e))
        end
  end.

(** What one round of the loop of [main] adds to the list. *)
Definition outcome (template : pyobj)
  (entry : string * (px_function * pyobj * string)) : option works_item :=
  let '(px_name, (px_fn, constructor, trace_type)) := entry in
  if fst (can_use_discrete_colors lib px_name px_fn constructor trace_type) then
    match fst (comparison px_name px_fn template (lookup_args PNone px_name)) with
    | Some figs => Some (px_name, figs, trace_type)
    | None => None
    end
  else None.

(** The list [main] hands to [generate_html_content]. *)
Definition working (template : pyobj) : list works_item :=
  filter_map (outcome template) (PX_FUNCTIONS lib).

(** The two exports of [generate_html_content] for a pair of figures. *)
Definition export_images (figs : Figure * Figure) : result (string * string) :=
  (img_base64_no <-- embedded_png lib (fst figs) ;;
   img_base64_with <-- embedded_png lib (snd figs) ;;
   Ok (img_base64_no, img_base64_with))%py.

(** The section of an item, when both of its images are exported. *)
Definition exported (item : works_item) : option section_data :=
  let '(px_name, figs, trace_type) := item in
  match export_images figs with
  | Ok (img_no, img_with) => Some (px_name, img_no, img_with, trace_type)
  | Raise _ => None
  end.

(** What [generate_html_content] prints for an item. *)
Definition export_line (item : works_item) : string :=
  let '(px_name, figs, trace_type) := item in
  match export_images figs with
  | Ok _ => "    Generated embedded images for " ++ px_name
  | Raise e =>
      "    Warning: Could not generate images for " ++ px_name ++ ": "
      ++ str_of_exn e
  end.

(** The template that [create_comprehensive_template] fills, when
    [trace constructor color] is the trace that
    [constructor(marker=dict(color=color))] builds. *)
Definition custom_template (trace : pyobj -> string -> pyobj) : pyobj :=
  PInst "Template"
    [("data",
      PInst "Data"
        (map (fun entry : string * pyobj =>
                (fst entry, PList (map (trace (snd entry)) template_colors)))
           trace_constructors));
     ("layout", PInst "Layout" [])].

Definition report_text (template : pyobj) : string :=
  html_head ++ sections_text (filter_map exported (working template))
  ++ html_tail.

(** Where a plot kind can fail: while its two figures are built, or
    while they are exported as images. *)
Inductive stage : Type := Constructing | Exporting.

(** In a run with [template], the plot kind [px_name] passes the checks
    of [can_use_discrete_colors], has example arguments, and [e] is
    raised at [stage]. *)
Definition raises_at (template : pyobj) (st : stage) (px_name : string)
  (e : exn) : Prop :=
  exists px_fn constructor trace_type,
    In (px_name, (px_fn, constructor, trace_type)) (PX_FUNCTIONS lib)
    /\ fst (can_use_discrete_colors lib px_name px_fn constructor trace_type)
       = true
    /\ lookup_args PNone px_name <> PNone
    /\ truthy (lookup_args PNone px_name) = true
    /\ match st with
       | Constructing =>
           build_figures px_fn template (lookup_args PNone px_name) = Raise e
       | Exporting =>
           exists figs,
             build_figures px_fn template (lookup_args PNone px_name) = Ok figs
             /\ export_images figs = Raise e
       end.

(** The exception text is on the console after the run. *)
Definition logged (w : World Rng) (e : exn) : Prop :=
  exists w' text,
    main lib w = (Ok tt, w')
    /\ In text (console w') /\ contains (str_of_exn e) text = true.


End Run.

End Report.

(** * A small instance of the libraries

    Figures are their descriptions, arrays and generator states are
    numbers.  Of the px functions only [bar] and [line] build a figure,
    [scatter] raises [boom]; the templated [line] figure cannot be
    exported.  Every exported image starts with the first byte of the
    PNG signature. *)

Module Demo.

Definition trace_of (cls : string) (kwargs : dict nat) : pyobj nat :=
  match dict_get kwargs "marker" with
  | Some (PDict marker) => PInst cls [("marker", PInst "Marker" marker)]
  | _ => PInst cls []
  end.

Definition demo_px (name : string) (kwargs : dict nat) : result string :=
  if set_mem name ["bar"; "line"] then
    Ok (name ++ match dict_get kwargs "template" with
                | Some _ => "+template"
                | None => ""
                end)
  else if String.eqb name "scatter" then Raise (Exception "boom")
  else Raise (Exception "no renderer").

Definition demo_write_image (fig format : string) (width height scale : Z)
  : result (list byte) :=
  if String.eqb fig "line+template" then Raise (Exception "kaleido failed")
  else Ok (x89 :: list_byte_of_string fig).

Definition lib : @Library string nat nat := {|
  px := demo_px;
  new := fun cls kwargs =>
           if String.eqb cls "Image" then Raise (Exception "no marker")
           else Ok (trace_of cls kwargs);
  pio_templates_plotly := PInst "Template" [("data", PInst "Data" []);
                                            ("layout", PInst "Layout" [])];
  merge_templates := fun a b => Ok (PLib "merge_templates" [a; b] []);
  write_image := demo_write_image;
  np_random_rand := fun rows cols g => (g, S g);
  write_text := fun path text => None
|}.

Definition world : World nat := mkWorld [] 0 [].

(** The template and the report of the run from [world]. *)
Definition template : pyobj nat :=
  Eval vm_compute in
    match create_comprehensive_template lib with
    | Ok template => template
    | Raise _ => PNone
    end.

Definition html : string :=
  Eval vm_compute in
    match Report.report lib world with
    | Some text => text
    | None => ""
    end.

End Demo.

(** * The effects of a run *)

Module Effects.
Import PyStr Report.

(** [xs] with some elements left out, the others in their order. *)
Inductive subsequence {A : Type} : list A -> list A -> Prop :=
| subsequence_nil : subsequence [] []
| subsequence_skip x xs ys : subsequence xs ys -> subsequence xs (x :: ys)
| subsequence_keep x xs ys : subsequence xs ys -> subsequence (x :: xs) (x :: ys).

(** The fixed texts of [plot_section], between the heading, the images,
    the plot kind names and the code. *)
Definition text1 : string :=
  Eval vm_compute in
    nl ++
    "        <div class=" ++ q "plot-section" ++ ">" ++ nl ++
    "            <h3>".

Definition text2 : string :=
  Eval vm_compute in
    "</h3>" ++ nl ++
    "            <div class=" ++ q "plot-container" ++ ">" ++ nl ++
    "                <div class=" ++ q "plot-box" ++ ">" ++ nl ++
    "                    <h3>Without Template</h3>" ++ nl ++
    "                    <img src=" ++ dq ++ "data:image/png;base64,".

Definition text3 : string := Eval vm_compute in dq ++ " alt=" ++ dq.

Definition text4 : string :=
  Eval vm_compute in
    " without template" ++ dq ++ ">" ++ nl ++
    "                </div>" ++ nl ++
    "                <div class=" ++ q "plot-box" ++ ">" ++ nl ++
    "                    <h3>With Template</h3>" ++ nl ++
    "                    <img src=" ++ dq ++ "data:image/png;base64,".

Definition text5 : string :=
  Eval vm_compute in
    " with template" ++ dq ++ ">" ++ nl ++
    "                    <pre style=" ++
    q "margin-top: 15px; padding: 10px; background-color: #f9f9f9; border-radius: 4px; font-size: 12px; overflow-x: auto; text-align: left;" ++
    "><code>".

Definition text6 : string :=
  Eval vm_compute in
    "</code></pre>" ++ nl ++
    "                </div>" ++ nl ++
    "            </div>" ++ nl ++
    "        </div>" ++ nl ++
    "        ".

(** A section whose plot kind, trace type and images have no character
    that opens a tag. *)
Definition tag_free (sec : section_data) : Prop :=
  let '(px_name, img_no, img_with, trace_type) := sec in
  has_char "<" px_name = false /\ has_char "<" trace_type = false
  /\ has_char "<" img_no = false /\ has_char "<" img_with = false.

Section Run.

Context {Figure NdArray Rng : Type}.
Variable lib : @Library Figure NdArray Rng.

Local Abbreviation pyobj := (pyobj NdArray).
Local Abbreviation works_item := (@works_item Figure).

(** What the loop of [main] prints for an item it keeps. *)
Definition check_line (item : works_item) : string :=
  let '(px_name, _, trace_type) := item in
  check_mark ++ " " ++ ljust px_name 30
  ++ " - Works (uses template.data." ++ trace_type ++ ")".

(** The entry passes [can_use_discrete_colors]. *)
Definition eligible (entry : string * (px_function * pyobj * string)) : bool :=
  let '(px_name, (px_fn, constructor, trace_type)) := entry in
  fst (can_use_discrete_colors lib px_name px_fn constructor trace_type).

(** The generator after [n] draws of [np.random.rand(10, 10)]. *)
Fixpoint draws (n : nat) (g : Rng) : Rng :=
  match n with
  | O => g
  | S n' => draws n' (snd (np_random_rand lib 10 10 g))
  end.

(** The world after one round of the loop of [main], and after the
    rounds of a list of entries. *)
Definition after_round (template : pyobj)
  (entry : string * (px_function * pyobj * string)) (w : World Rng)
  : World Rng :=
  if eligible entry then
    match outcome lib template entry with
    | Some item => printed (after_draw lib w) [check_line item]
    | None => after_draw lib w
    end
  else w.

Definition after_loop (template : pyobj)
  (entries : list (string * (px_function * pyobj * string))) (w : World Rng)
  : World Rng :=
  fold_left (fun w entry => after_round template entry w) entries w.

(** The texts [main] prints before its loop, between the loop and
    [generate_html_content], and after the file is written. *)
Definition banner : list string :=
  [repeat_str "=" 80;
   "Comprehensive Plotly Express Template Color Demonstration";
   repeat_str "=" 80;
   nl ++ "Analyzing all Plotly Express functions...";
   repeat_str "-" 80].

Definition interlude : list string :=
  [nl ++ repeat_str "=" 80; "Creating HTML file..."].

Definition closing (n : nat) : list string :=
  ["  " ++ check_mark ++ " Created all_px_template_demo.html";
   nl ++ "Generated " ++ str_of_nat n ++ " working comparisons";
   nl ++ repeat_str "=" 80;
   "Complete! Open all_px_template_demo.html in a browser to see all comparisons.";
   repeat_str "=" 80].

End Run.

End Effects.

(** * Exceptions that the script does not guard

    [create_plot_comparison] calls [get_plot_args] before its [try], and
    [except Exception] catches the instances of [Exception] only.  In
    this finer embedding of the two functions the calls of [px.data],
    pandas and [px.Constant] that [get_plot_args] makes return or raise,
    and a call can raise a signal outside [Exception]
    (KeyboardInterrupt, SystemExit).  With data calls that return, kept
    as terms ([as_term]), and px functions that raise no signal
    ([guarded]) it is the embedding above. *)

Module Signals.

Inductive raised : Type :=
| Exc (e : exn)          (* an instance of Exception *)
| Sig (name : string).   (* a BaseException that is not an Exception *)

Inductive outcome (A : Type) : Type :=
| Returned (a : A)
| Raised (r : raised).
Arguments Returned {A} a.
Arguments Raised {A} r.

Definition of_result {A} (r : result A) : outcome A :=
  match r with
  | Ok a => Returned a
  | Raise e => Raised (Exc e)
  end.

Section Effects.

Context {Rng : Type}.

Definition M (A : Type) : Type := World Rng -> outcome A * World Rng.

Definition ret {A} (a : A) : M A := fun w => (Returned a, w).

Definition bind {A B} (m : M A) (k : A -> M B) : M B :=
  fun w =>
    match m w with
    | (Returned a, w') => k a w'
    | (Raised r, w') => (Raised r, w')
    end.

(** A call that only returns or raises. *)
Definition lift {A} (r : outcome A) : M A := fun w => (r, w).

(** A computation of the embedding above. *)
Definition embed {A} (m : World Rng -> result A * World Rng) : M A :=
  fun w => let '(r, w') := m w in (of_result r, w').

(** [try: body  except Exception as e: handler e]: a signal passes. *)
Definition try_catch {A} (body : M A) (handler : exn -> M A) : M A :=
  fun w =>
    match body w with
    | (Returned a, w') => (Returned a, w')
    | (Raised (Exc e), w') => handler e w'
    | (Raised (Sig name), w') => (Raised (Sig name), w')
    end.

End Effects.
Arguments M Rng A : clear implicits.

Declare Scope sig_scope.
Delimit Scope sig_scope with sig.
Notation "x <- m ;; k" := (bind m (fun x => k))
  (at level 61, m at next level, right associativity) : sig_scope.

Section Script.

Context {Figure NdArray Rng : Type}.

Local Abbreviation pyobj := (pyobj NdArray).
Local Abbreviation dict := (dict NdArray).
Local Abbreviation M := (M Rng).

Local Open Scope sig_scope.

Variable lib : @Library Figure NdArray Rng.

(** [fn( *args, **kwargs )] for a function of [px.data], pandas or
    [px.Constant], or a method of a data frame with the frame as its first
    argument. *)
Variable data_call :
  string -> list pyobj -> list (string * pyobj) -> outcome pyobj.

Definition px_function : Type := dict -> outcome Figure.

Definition timeline_records : pyobj :=
  PList [
    PDict [("Task", PStr "Job A"); ("Start", PStr "2009-01-01");
           ("Finish", PStr "2009-02-28"); ("Resource", PStr "Alex")];
    PDict [("Task", PStr "Job B"); ("Start", PStr "2009-03-05");
           ("Finish", PStr "2009-04-15"); ("Resource", PStr "Alex")];
    PDict [("Task", PStr "Job C"); ("Start", PStr "2009-02-20");
           ("Finish", PStr "2009-05-30"); ("Resource", PStr "Max")]].

Definition funnel_montreal : pyobj :=
  PDict [("number", PList [PInt 39; PDec 274 1; PDec 206 1; PInt 11; PInt 3]);
         ("stage", strs funnel_stages);
         ("office", PList (repeat (PStr "Montreal") 5))].

Definition funnel_toronto : pyobj :=
  PDict [("number", PList [PInt 52; PInt 36; PInt 18; PInt 14; PInt 5]);
         ("stage", strs funnel_stages);
         ("office", PList (repeat (PStr "Toronto") 5))].

(** The dict literal of [get_plot_args] over the values that the data
    calls and [np.random.rand] returned. *)
Definition args_table
  (tips iris gapminder df_line wind election timeline_frame tips_head
   all_sunburst all_treemap all_icicle funnel_frame img : pyobj)
  : list (string * pyobj) :=
  let hierarchy (all : pyobj) :=
    PDict [("data_frame", tips);
           ("path", PList [all; PStr "sex"; PStr "day"; PStr "time"]);
           ("values", PStr "total_bill");
           ("color", PStr "day")] in
  [
  (* 2D Cartesian *)
  ("scatter", PDict [("data_frame", iris); ("x", PStr "sepal_width");
                     ("y", PStr "sepal_length"); ("color", PStr "species")]);
  ("line", PDict [("data_frame", df_line); ("x", PStr "year");
                  ("y", PStr "lifeExp"); ("color", PStr "country")]);
  ("area", PDict [("data_frame", df_line); ("x", PStr "year");
                  ("y", PStr "lifeExp"); ("color", PStr "country")]);
  ("bar", PDict [("data_frame", tips); ("x", PStr "day");
                 ("y", PStr "total_bill"); ("color", PStr "sex")]);
  ("timeline",
   PDict [("data_frame", timeline_frame);
          ("x_start", PStr "Start");
          ("x_end", PStr "Finish");
          ("y", PStr "Resource");
          ("color", PStr "Resource")]);
  ("histogram", PDict [("data_frame", tips); ("x", PStr "total_bill");
                       ("color", PStr "sex")]);
  ("ecdf", PDict [("data_frame", tips); ("x", PStr "total_bill");
                  ("color", PStr "sex")]);
  ("violin", PDict [("data_frame", tips); ("x", PStr "day");
                    ("y", PStr "total_bill"); ("color", PStr "sex")]);
  ("box", PDict [("data_frame", tips); ("x", PStr "day");
                 ("y", PStr "total_bill"); ("color", PStr "sex")]);
  ("strip", PDict [("data_frame", tips); ("x", PStr "day");
                   ("y", PStr "total_bill"); ("color", PStr "sex")]);
  (* 3D *)
  ("scatter_3d", PDict [("data_frame", iris); ("x", PStr "sepal_length");
                        ("y", PStr "sepal_width"); ("z", PStr "petal_length");
                        ("color", PStr "species")]);
  ("line_3d", PDict [("data_frame", iris); ("x", PStr "sepal_length");
                     ("y", PStr "sepal_width"); ("z", PStr "petal_length");
                     ("color", PStr "species")]);
  (* Ternary *)
  ("scatter_ternary", PDict [("data_frame", election); ("a", PStr "Joly");
                             ("b", PStr "Coderre"); ("c", PStr "Bergeron");
                             ("color", PStr "winner")]);
  ("line_ternary", PDict [("data_frame", election); ("a", PStr "Joly");
                          ("b", PStr "Coderre"); ("c", PStr "Bergeron");
                          ("color", PStr "winner")]);
  (* Polar *)
  ("scatter_polar", PDict [("data_frame", wind); ("r", PStr "frequency");
                           ("theta", PStr "direction");
                           ("color", PStr "strength")]);
  ("line_polar", PDict [("data_frame", wind); ("r", PStr "frequency");
                        ("theta", PStr "direction");
                        ("color", PStr "strength");
                        ("line_close", PBool true)]);
  ("bar_polar", PDict [("data_frame", wind); ("r", PStr "frequency");
                       ("theta", PStr "direction");
                       ("color", PStr "strength")]);
  (* Geographic *)
  ("scatter_geo", PNone);
  ("line_geo", PNone);
  ("choropleth", PDict [("data_frame", gapminder);
                        ("locations", PStr "iso_alpha");
                        ("color", PStr "lifeExp");
                        ("hover_name", PStr "country")]);
  (* Map *)
  ("scatter_map", PNone);
  ("line_map", PNone);
  ("choropleth_map", PDict [("data_frame", gapminder); ("geojson", PNone);
                            ("locations", PStr "iso_alpha");
                            ("color", PStr "lifeExp")]);
  ("density_map", PNone);
  (* Mapbox *)
  ("scatter_mapbox", PNone);
  ("line_mapbox", PNone);
  ("choropleth_mapbox", PDict [("data_frame", gapminder); ("geojson", PNone);
                               ("locations", PStr "iso_alpha");
                               ("color", PStr "lifeExp")]);
  ("density_mapbox", PNone);
  (* Special *)
  ("scatter_matrix",
   PDict [("data_frame", iris);
          ("dimensions", strs ["sepal_width"; "sepal_length"; "petal_width"]);
          ("color", PStr "species")]);
  ("parallel_coordinates",
   PDict [("data_frame", iris);
          ("dimensions", strs ["sepal_width"; "sepal_length"; "petal_width"]);
          ("color", PStr "species")]);
  ("parallel_categories",
   PDict [("data_frame", tips_head);
          ("dimensions", strs ["sex"; "smoker"; "day"]);
          ("color", PStr "time")]);
  (* Statistical *)
  ("density_contour", PDict [("data_frame", tips); ("x", PStr "total_bill");
                             ("y", PStr "tip"); ("color", PStr "sex")]);
  ("density_heatmap", PDict [("data_frame", tips); ("x", PStr "total_bill");
                             ("y", PStr "tip")]);
  (* Hierarchical *)
  ("pie", PDict [("data_frame", tips); ("names", PStr "day");
                 ("values", PStr "total_bill")]);
  ("sunburst", hierarchy all_sunburst);
  ("treemap", hierarchy all_treemap);
  ("icicle", hierarchy all_icicle);
  ("funnel",
   PDict [("data_frame", funnel_frame);
          ("x", PStr "number");
          ("y", PStr "stage");
          ("color", PStr "office")]);
  ("funnel_area",
   PDict [("names", strs ["The 1st"; "The 2nd"; "The 3rd"; "The 4th"; "The 5th"]);
          ("values", PList [PInt 5; PInt 4; PInt 3; PInt 2; PInt 1])]);
  (* Image *)
  ("imshow", PDict [("img", img)])
  ].

(** The calls of [get_plot_args] in the order of the source: the six
    data sets, then the values of the dict literal from top to bottom,
    the array of [imshow] last. *)
Definition get_plot_args (px_name : string) (px_fn : px_function) : M pyobj :=
  tips <- lift (data_call "px.data.tips" [] []) ;;
  iris <- lift (data_call "px.data.iris" [] []) ;;
  gapminder_all <- lift (data_call "px.data.gapminder" [] []) ;;
  gapminder <-
    lift (data_call "DataFrame.query" [gapminder_all; PStr "year == 2007"] []) ;;
  gapminder_all <- lift (data_call "px.data.gapminder" [] []) ;;
  df_line <-
    lift (data_call "DataFrame.query"
            [gapminder_all;
             PStr "country in ['Canada', 'Botswana', 'Brazil']"] []) ;;
  wind <- lift (data_call "px.data.wind" [] []) ;;
  election <- lift (data_call "px.data.election" [] []) ;;
  timeline_frame <- lift (data_call "pd.DataFrame" [timeline_records] []) ;;
  tips_head <- lift (data_call "DataFrame.head" [tips; PInt 20] []) ;;
  all_sunburst <- lift (data_call "px.Constant" [PStr "all"] []) ;;
  all_treemap <- lift (data_call "px.Constant" [PStr "all"] []) ;;
  all_icicle <- lift (data_call "px.Constant" [PStr "all"] []) ;;
  montreal <- lift (data_call "pd.DataFrame" [funnel_montreal] []) ;;
  toronto <- lift (data_call "pd.DataFrame" [funnel_toronto] []) ;;
  funnel_frame <-
    lift (data_call "pd.concat" [PList [montreal; toronto]] [("axis", PInt 0)]) ;;
  img <- embed (random_rand lib 10 10) ;;
  ret (match
         dict_get
           (args_table tips iris gapminder df_line wind election timeline_frame
              tips_head all_sunburst all_treemap all_icicle funnel_frame img)
           px_name
       with
       | Some args => args
       | None => PDict []
       end).

(** [px_fn( **args )] *)
Definition call_px (px_fn : px_function) (args : pyobj) : outcome Figure :=
  match args with
  | PDict kwargs => px_fn kwargs
  | _ => Raised (Exc (Exception "argument after ** must be a mapping"))
  end.

Definition create_plot_comparison (px_name : string) (px_fn : px_function)
  (constructor : pyobj) (trace_type : string) (template : pyobj)
  : M (option (Figure * Figure) * option string) :=
  args <- get_plot_args px_name px_fn ;;
  match args with
  | PNone => ret (None, Some ("No test data configured for " ++ px_name))
  | _ =>
      if negb (truthy args) then
        ret (None, Some ("Missing required arguments for " ++ px_name))
      else
        try_catch
          (fig_no_template <- lift (call_px px_fn args) ;;
           args_with_template <-
             lift (of_result (with_template args template)) ;;
           fig_with_template <- lift (call_px px_fn args_with_template) ;;
           ret (Some (fig_no_template, fig_with_template), None))
          (fun e => ret (None, Some (str_of_exn e)))
  end.

End Script.

(** Data calls that return: the value is kept as the call, as in
    [args_map]. *)
Definition as_term {NdArray : Type} (fn : string) (args : list (pyobj NdArray))
  (kw : list (string * pyobj NdArray)) : outcome (pyobj NdArray) :=
  Returned (PLib fn args kw).

(** A px function of the embedding above: it raises no signal. *)
Definition guarded {Figure NdArray : Type}
  (px_fn : dict NdArray -> result Figure) : @px_function Figure NdArray :=
  fun kwargs => of_result (px_fn kwargs).

End Signals.

(** [Demo.lib] where the data set of tips cannot be loaded, and a px
    function that is interrupted from the keyboard. *)
Module DemoSignals.
Import Signals.

Definition no_tips (fn : string) (args : list (pyobj nat))
  (kw : list (string * pyobj nat)) : outcome (pyobj nat) :=
  if String.eqb fn "px.data.tips"
  then Raised (Exc (Exception "tips.csv.gz not found"))
  else as_term fn args kw.

Definition interrupted : @px_function string nat :=
  fun kwargs => Raised (Sig "KeyboardInterrupt").

End DemoSignals.

(** * Properties *)

(** ** Strings *)

Module PyStrFacts.
Import PyStr.

Lemma prefix_app_true (m u y : string) :
  String.prefix m u = true -> String.prefix m (u ++ y) = true.
Proof.
  revert u. induction m as [|a m IH]; intros u H.
  - now destruct (u ++ y).
  - destruct u as [|b u]; simpl in *; [discriminate|].
    destruct (ascii_dec a b); [now apply IH | discriminate].
Qed.

Lemma prefix_app_stuck (m u y : string) :
  String.prefix u m = false -> String.prefix m (u ++ y) = String.prefix m u.
Proof.
  revert u. induction m as [|a m IH]; intros u H.
  - destruct u; simpl in H; [discriminate|].
    simpl. reflexivity.
  - destruct u as [|b u]; simpl in *; [discriminate|].
    destruct (ascii_dec b a) as [->|Hne].
    + destruct (ascii_dec a a); [now apply IH | congruence].
    + destruct (ascii_dec a b); [congruence | reflexivity].
Qed.

Lemma prefix_app_boundary (m u y : string) :
  (String.prefix m u || negb (String.prefix u m)) = true ->
  String.prefix m (u ++ y) = String.prefix m u.
Proof.
  intros H. destruct (String.prefix m u) eqn:E.
  - now apply prefix_app_true.
  - simpl in H. apply negb_true_iff in H.
    rewrite prefix_app_stuck by exact H. exact E.
Qed.

Lemma count_sub_app (m x y : string) :
  boundary_free m x = true ->
  count_sub m (x ++ y) = count_sub m x + count_sub m y.
Proof.
  induction x as [|c x IH]; intros H; [reflexivity|].
  cbn [boundary_free] in H. apply andb_true_iff in H as [Hb Hx].
  change (String c x ++ y) with (String c (x ++ y)).
  cbn [count_sub].
  change (String c (x ++ y)) with (String c x ++ y).
  rewrite (prefix_app_boundary _ _ _ Hb), (IH Hx). lia.
Qed.

(** A string without the first character of [m] holds no occurrence of
    [m] and no beginning of one. *)
Lemma no_first_char (c : ascii) (m x : string) :
  has_char c x = false ->
  boundary_free (String c m) x = true /\ count_sub (String c m) x = 0.
Proof.
  induction x as [|d x IH]; intros H; [now split|].
  cbn [has_char] in H. apply orb_false_iff in H as [Hd Hx].
  destruct (IH Hx) as [IH1 IH2].
  assert (Hp : String.prefix (String c m) (String d x) = false).
  { simpl. destruct (ascii_dec c d) as [->|]; [|reflexivity].
    now rewrite Ascii.eqb_refl in Hd. }
  assert (Hq : String.prefix (String d x) (String c m) = false).
  { simpl. destruct (ascii_dec d c) as [->|]; [|reflexivity].
    now rewrite Ascii.eqb_refl in Hd. }
  split.
  - cbn [boundary_free]. now rewrite Hp, Hq, IH1.
  - cbn [count_sub]. now rewrite Hp, IH2.
Qed.

Lemma count_sub_skip (c : ascii) (m x y : string) :
  has_char c x = false ->
  count_sub (String c m) (x ++ y) = count_sub (String c m) y.
Proof.
  intros H. destruct (no_first_char c m x H) as [H1 H2].
  now rewrite count_sub_app, H2.
Qed.





Lemma has_char_app (c : ascii) (x y : string) :
  has_char c (x ++ y) = has_char c x || has_char c y.
Proof.
  induction x as [|d x IH]; simpl; [reflexivity|].
  now rewrite IH, orb_assoc.
Qed.

End PyStrFacts.

(** ** Base64 *)

Module Base64Facts.
Import PyStr Base64.

Lemma list_ind3 {A} (P : list A -> Prop) :
  P [] -> (forall a, P [a]) -> (forall a b, P [a; b]) ->
  (forall a b c rest, P rest -> P (a :: b :: c :: rest)) ->
  forall l, P l.
Proof.
  intros H0 H1 H2 H3.
  fix IH 1.
  intros [|a [|b [|c rest]]];
    [apply H0 | apply H1 | apply H2 | apply H3, IH].
Qed.

Lemma sextet_b64_char (n : N) : b64_char (sextet n) = true.
Proof.
  unfold b64_char, sextet. apply existsb_exists.
  destruct (nth_in_or_default (N.to_nat (N.land n 63)) alphabet "/"%char)
    as [Hin | ->].
  - exists (nth (N.to_nat (N.land n 63)) alphabet "/"%char).
    split; [now right | apply Ascii.eqb_refl].
  - exists "/"%char. split; [|reflexivity].
    right. unfold alphabet. simpl. tauto.
Qed.

Lemma encode_b64_chars (bs : list byte) : forallb b64_char (encode bs) = true.
Proof.
  induction bs as [|a|a b|a b c rest IH] using list_ind3;
    cbn [encode forallb]; rewrite ?sextet_b64_char, ?IH; reflexivity.
Qed.

(** A character outside the alphabet is not in an encoded text. *)
Lemma b64encode_has_char (c : ascii) (bs : list byte) :
  b64_char c = false -> has_char c (b64encode bs) = false.
Proof.
  intros Hc. unfold b64encode.
  pose proof (encode_b64_chars bs) as H.
  induction (encode bs) as [|d l IH]; [reflexivity|].
  cbn [forallb] in H. apply andb_true_iff in H as [Hd Hl].
  cbn [string_of_list_ascii has_char]. rewrite (IH Hl), orb_false_r.
  destruct (Ascii.eqb c d) eqn:E; [|reflexivity].
  apply Ascii.eqb_eq in E. congruence.
Qed.


End Base64Facts.

(** ** What a run computes *)

Module RunFacts.
Import PyStr Report.

Lemma append_assoc (x y z : string) : (x ++ y) ++ z = x ++ y ++ z.
Proof. induction x as [|c x IH]; simpl; [reflexivity | now rewrite IH]. Qed.

Lemma append_nil_r (x : string) : x ++ "" = x.
Proof. induction x as [|c x IH]; simpl; [reflexivity | now rewrite IH]. Qed.

Section Run.

Context {Figure NdArray Rng : Type}.
Variable lib : @Library Figure NdArray Rng.

Local Abbreviation pyobj := (pyobj NdArray).
Local Abbreviation works_item := (@works_item Figure).
Local Abbreviation World := (World Rng).

Lemma get_plot_args_run px_name px_fn w :
  get_plot_args lib px_name px_fn w
  = (Ok (lookup_args (drawn lib w) px_name), after_draw lib w).
Proof.
  unfold get_plot_args, bind, random_rand, drawn, after_draw, lookup_args, ret.
  now destruct (np_random_rand lib 10 10 (rng w)).
Qed.

(** The random array is the argument of [imshow] alone. *)
Lemma lookup_args_static (img img' : pyobj) (px_name : string) :
  px_name <> "imshow" -> lookup_args img px_name = lookup_args img' px_name.
Proof.
  intros Hne. unfold lookup_args, args_map. cbn [dict_get].
  repeat match goal with
         | |- context [String.eqb ?k px_name] =>
             destruct (String.eqb_spec k px_name) as [E|_];
             [try reflexivity; congruence|]
         end.
  reflexivity.
Qed.

Lemma create_plot_comparison_run px_name px_fn constructor trace_type template w :
  create_plot_comparison lib px_name px_fn constructor trace_type template w
  = (Ok (comparison px_name px_fn template (lookup_args (drawn lib w) px_name)),
     after_draw lib w).
Proof.
  unfold create_plot_comparison, bind at 1. rewrite get_plot_args_run.
  unfold comparison, build_figures.
  destruct (lookup_args (drawn lib w) px_name) as [|b|z|dg pl|s|l|d|n|c a|f a k|a];
    try reflexivity;
    destruct (negb (truthy _)); try reflexivity;
    unfold try_catch, bind, lift, ret, rbind;
    repeat match goal with
           | |- context [match ?r with Ok _ => _ | Raise _ => _ end] =>
               destruct r; try reflexivity
           end.
Qed.

Lemma bind_ok {A B} (m : M Rng A) (k : A -> M Rng B) w a w' :
  m w = (Ok a, w') -> bind m k w = k a w'.
Proof. unfold bind. now intros ->. Qed.

Lemma bind_print {B} (text : string) (k : unit -> M Rng B) w :
  bind (print text) k w = k tt (printed w [text]).
Proof. reflexivity. Qed.

Lemma printed_files (w : World) texts : files (printed w texts) = files w.
Proof. reflexivity. Qed.

Lemma printed_console (w : World) texts : console (printed w texts) = (console w ++ texts)%list.
Proof. reflexivity. Qed.

(** An eligible plot kind is not [imshow]. *)
Lemma eligible_not_imshow px_name px_fn constructor trace_type :
  fst (can_use_discrete_colors lib px_name px_fn constructor trace_type) = true ->
  px_name <> "imshow".
Proof.
  unfold can_use_discrete_colors. intros H ->.
  vm_compute in H. discriminate.
Qed.

(** One round of the loop of [main]: it returns, adds what [outcome]
    says, and touches neither the files nor the printed texts so far. *)
Lemma main_body_run template works entry w :
  exists w',
    main_body lib template works entry w
    = (Ok (works ++ filter_map (outcome lib template) [entry])%list, w')
    /\ files w' = files w
    /\ exists texts, console w' = (console w ++ texts)%list.
Proof.
  destruct entry as [px_name [[px_fn constructor] trace_type]].
  unfold main_body. cbn [filter_map outcome].
  pose proof (eligible_not_imshow px_name px_fn constructor trace_type) as Hne.
  destruct (can_use_discrete_colors lib px_name px_fn constructor trace_type)
    as [can_use reason].
  cbn [fst] in *. destruct can_use.
  - unfold bind at 1. rewrite create_plot_comparison_run.
    rewrite (lookup_args_static _ PNone px_name (Hne eq_refl)).
    destruct (comparison px_name px_fn template (lookup_args PNone px_name))
      as [[figs|] error]; cbn [fst].
    + rewrite bind_print. unfold ret. eexists. split; [reflexivity|].
      split; [reflexivity|]. cbn [console printed after_draw]. now eexists.
    + unfold ret. eexists. split; [now rewrite app_nil_r|].
      split; [reflexivity|]. exists []. cbn. now rewrite app_nil_r.
  - unfold ret. exists w. split; [now rewrite app_nil_r|].
    split; [reflexivity|]. exists []. now rewrite app_nil_r.
Qed.

Lemma filter_map_app {A B} (f : A -> option B) (l l' : list A) :
  filter_map f (l ++ l') = (filter_map f l ++ filter_map f l')%list.
Proof.
  induction l as [|x l IH]; [reflexivity|].
  cbn [filter_map app]. destruct (f x); now rewrite IH.
Qed.

Lemma loop_run template entries works w :
  exists w',
    for_each entries (main_body lib template) works w
    = (Ok (works ++ filter_map (outcome lib template) entries)%list, w')
    /\ files w' = files w
    /\ exists texts, console w' = (console w ++ texts)%list.
Proof.
  revert works w. induction entries as [|entry entries IH]; intros works w.
  - exists w. cbn [for_each filter_map]. unfold ret. rewrite app_nil_r.
    split; [reflexivity|]. split; [reflexivity|].
    exists []. now rewrite app_nil_r.
  - destruct (main_body_run template works entry w)
      as (w1 & Hrun & Hfiles & texts1 & Hconsole).
    destruct (IH (works ++ filter_map (outcome lib template) [entry])%list w1)
      as (w2 & Hrest & Hfiles2 & texts2 & Hconsole2).
    exists w2. cbn [for_each]. rewrite (bind_ok _ _ _ _ _ Hrun), Hrest.
    change (entry :: entries) with ([entry] ++ entries)%list.
    rewrite filter_map_app, app_assoc. split; [reflexivity|].
    split; [congruence|].
    exists (texts1 ++ texts2)%list. now rewrite Hconsole2, Hconsole, app_assoc.
Qed.

(** The loop of [main] never raises, and its list does not depend on
    the world it starts in. *)
Lemma main_loop_run template w :
  exists w',
    main_loop lib template w = (Ok (working lib template), w')
    /\ files w' = files w
    /\ exists texts, console w' = (console w ++ texts)%list.
Proof.
  destruct (loop_run template (PX_FUNCTIONS lib) [] w) as (w' & Hrun & Hrest).
  rewrite app_nil_l in Hrun. exists w'. split; [exact Hrun | exact Hrest].
Qed.

(** One round of the loop of [generate_html_content]: it returns, prints
    one text and appends the section of the item, if both images are
    exported. *)
Lemma html_body_run html_content item w :
  html_body lib html_content item w
  = (Ok (html_content ++ sections_text (filter_map (exported lib) [item])),
     printed w [export_line lib item]).
Proof.
  destruct item as [[px_name [fig_no fig_with]] trace_type].
  unfold html_body, try_catch, bind, lift, exported, export_line, export_images.
  cbn [filter_map fst snd]. unfold rbind.
  destruct (embedded_png lib fig_no) as [img_no|e].
  - destruct (embedded_png lib fig_with) as [img_with|e].
    + cbn. unfold ret. now rewrite append_nil_r.
    + cbn. unfold ret. now rewrite append_nil_r.
  - cbn. unfold ret. now rewrite append_nil_r.
Qed.

Lemma sections_text_app (secs secs' : list section_data) :
  sections_text (secs ++ secs') = sections_text secs ++ sections_text secs'.
Proof.
  induction secs as [|sec secs IH]; [reflexivity|].
  cbn [sections_text app fold_right]. fold (sections_text (secs ++ secs')).
  fold (sections_text secs). now rewrite IH, append_assoc.
Qed.

Lemma html_loop_run works html_content w :
  for_each works (html_body lib) html_content w
  = (Ok (html_content ++ sections_text (filter_map (exported lib) works)),
     printed w (map (export_line lib) works)).
Proof.
  revert html_content w. induction works as [|item works IH]; intros html w.
  - cbn. unfold ret, printed. rewrite append_nil_r, app_nil_r. now destruct w.
  - cbn [for_each]. rewrite (bind_ok _ _ _ _ _ (html_body_run html item w)), IH.
    change (item :: works) with ([item] ++ works)%list.
    rewrite filter_map_app, sections_text_app, append_assoc.
    unfold printed. cbn [console rng files map app]. now rewrite <- app_assoc.
Qed.

(** [generate_html_content] never raises: the report is the head, the
    sections of the items whose images are exported, and the tail. *)
Lemma generate_html_content_run works w :
  generate_html_content lib works w
  = (Ok (html_head ++ sections_text (filter_map (exported lib) works)
         ++ html_tail),
     printed w (map (export_line lib) works)).
Proof.
  unfold generate_html_content.
  rewrite (bind_ok _ _ _ _ _ (html_loop_run works html_head w)).
  unfold ret. now rewrite append_assoc.
Qed.

(** [main] returns when the template is built and the file is written;
    the file then holds [report_text], and every text printed by
    [generate_html_content] is on the console. *)
Lemma main_run template w :
  create_comprehensive_template lib = Ok template ->
  write_text lib report_path (report_text lib template) = None ->
  exists w',
    main lib w = (Ok tt, w')
    /\ files w' = (report_path, report_text lib template) :: files w
    /\ forall item, In item (working lib template) ->
                    In (export_line lib item) (console w').
Proof.
  intros Htemplate Hwrite. unfold main.
  rewrite !bind_print.
  rewrite (bind_ok _ _ (printed _ _) template (printed _ _))
    by (unfold lift; now rewrite Htemplate).
  rewrite !bind_print.
  match goal with
  | |- context [bind (main_loop lib template) _ ?w0] =>
      destruct (main_loop_run template w0) as (w1 & Hloop & Hfiles & _)
  end.
  rewrite (bind_ok _ _ _ _ _ Hloop), !bind_print.
  rewrite (bind_ok _ _ _ _ _ (generate_html_content_run _ _)).
  fold (report_text lib template).
  unfold bind at 1, write_file at 1. fold report_path. rewrite Hwrite.
  rewrite !bind_print. unfold print. eexists. split; [reflexivity|].
  cbn [files console printed]. split; [now rewrite Hfiles|].
  intros item Hin. rewrite !in_app_iff. do 5 left. right.
  now apply in_map.
Qed.

(** The report of a run is decided by the libraries alone. *)
Lemma report_eq w :
  report lib w
  = match create_comprehensive_template lib with
    | Ok template =>
        match write_text lib report_path (report_text lib template) with
        | None => Some (report_text lib template)
        | Some _ => None
        end
    | Raise _ => None
    end.
Proof.
  unfold report, main. rewrite !bind_print.
  unfold bind at 1, lift at 1.
  destruct (create_comprehensive_template lib) as [template|e]; [|reflexivity].
  rewrite !bind_print.
  match goal with
  | |- context [bind (main_loop lib template) _ ?w0] =>
      destruct (main_loop_run template w0) as (w1 & Hloop & Hfiles & _)
  end.
  rewrite (bind_ok _ _ _ _ _ Hloop), !bind_print.
  rewrite (bind_ok _ _ _ _ _ (generate_html_content_run _ _)).
  fold (report_text lib template).
  unfold bind at 1, write_file at 1. fold report_path.
  destruct (write_text lib report_path (report_text lib template));
    [reflexivity|].
  rewrite !bind_print. unfold print.
  cbn [files printed dict_get]. now rewrite String.eqb_refl.
Qed.

(** Conversely, a report on disk after [main] is [report_text]. *)
Lemma report_inv w text :
  report lib w = Some text ->
  exists template,
    create_comprehensive_template lib = Ok template
    /\ text = report_text lib template.
Proof.
  unfold report, main. rewrite !bind_print.
  unfold bind at 1, lift at 1.
  destruct (create_comprehensive_template lib) as [template|e]; [|discriminate].
  rewrite !bind_print.
  match goal with
  | |- context [bind (main_loop lib template) _ ?w0] =>
      destruct (main_loop_run template w0) as (w1 & Hloop & Hfiles & _)
  end.
  rewrite (bind_ok _ _ _ _ _ Hloop), !bind_print.
  rewrite (bind_ok _ _ _ _ _ (generate_html_content_run _ _)).
  fold (report_text lib template).
  unfold bind at 1, write_file at 1. fold report_path.
  destruct (write_text lib report_path (report_text lib template));
    [discriminate|].
  rewrite !bind_print. unfold print.
  cbn [files printed dict_get]. rewrite String.eqb_refl.
  intros [= <-]. now exists template.
Qed.

Lemma report_run template w :
  create_comprehensive_template lib = Ok template ->
  write_text lib report_path (report_text lib template) = None ->
  report lib w = Some (report_text lib template).
Proof.
  intros Htemplate Hwrite.
  destruct (main_run template w Htemplate Hwrite) as (w' & Hmain & Hfiles & _).
  unfold report. rewrite Hmain, Hfiles. cbn [dict_get].
  now rewrite String.eqb_refl.
Qed.

End Run.

End RunFacts.

(** ** Counting in the text of a report *)

Module TextFacts.
Import PyStr Report PyStrFacts RunFacts.

Lemma render_pieces px_name img_no img_with trace_type :
  render (px_name, img_no, img_with, trace_type)
  = piece1 px_name ++ img_no ++ piece2 px_name ++ img_with
    ++ piece3 px_name trace_type.
Proof.
  unfold render, plot_section, piece1, piece2, piece3, q.
  rewrite !append_assoc. reflexivity.
Qed.



Section Marker.

(** A marker that starts with the character that opens a tag. *)
Variable m' : string.
Let m : string := String "<" m'.
Variable expected : string -> nat.
Hypothesis Hmarker : marker_ok m expected = true.

Lemma marker_head : boundary_free m html_head = true /\ count_sub m html_head = 0.
Proof.
  pose proof Hmarker as H. unfold marker_ok in H.
  apply andb_true_iff in H as [H _].
  apply andb_true_iff in H as [H _].
  apply andb_true_iff in H as [Hfree Hcount].
  split; [exact Hfree | apply Nat.eqb_eq; exact Hcount].
Qed.

Lemma marker_tail : count_sub m html_tail = 0.
Proof.
  pose proof Hmarker as H. unfold marker_ok in H.
  apply andb_true_iff in H as [H _].
  apply andb_true_iff in H as [_ Hcount].
  apply Nat.eqb_eq. exact Hcount.
Qed.

Lemma marker_kind px_name trace_type :
  In (px_name, trace_type) plot_kinds ->
  pieces_ok m px_name trace_type = true
  /\ occurrences m px_name trace_type = expected px_name.
Proof.
  intros Hin. pose proof Hmarker as H. unfold marker_ok in H.
  apply andb_true_iff in H as [_ Hall].
  rewrite forallb_forall in Hall. specialize (Hall _ Hin). cbn beta iota in Hall.
  apply andb_true_iff in Hall as [Hok Hocc].
  split; [exact Hok | apply Nat.eqb_eq; exact Hocc].
Qed.

Lemma count_render sec rest :
  well_formed sec ->
  count_sub m (render sec ++ rest)
  = expected (section_name sec) + count_sub m rest.
Proof.
  destruct sec as [[[px_name img_no] img_with] trace_type].
  intros (Hin & Hno & Hwith). cbn [section_name].
  destruct (marker_kind _ _ Hin) as [Hok <-].
  unfold pieces_ok in Hok.
  apply andb_true_iff in Hok as [Hok H3].
  apply andb_true_iff in Hok as [H1 H2].
  rewrite render_pieces, !append_assoc.
  rewrite (count_sub_app _ _ _ H1).
  unfold m at 2. rewrite (count_sub_skip _ _ _ _ Hno). fold m.
  rewrite (count_sub_app _ _ _ H2).
  unfold m at 3. rewrite (count_sub_skip _ _ _ _ Hwith). fold m.
  rewrite (count_sub_app _ _ _ H3).
  unfold occurrences. lia.
Qed.

Lemma count_sections_text secs rest :
  Forall well_formed secs ->
  count_sub m (sections_text secs ++ rest)
  = list_sum (map (fun sec => expected (section_name sec)) secs)
    + count_sub m rest.
Proof.
  induction 1 as [|sec secs Hsec _ IH]; [reflexivity|].
  cbn [sections_text fold_right map list_sum]. fold (sections_text secs).
  rewrite append_assoc, (count_render _ _ Hsec), IH.
  unfold list_sum. lia.
Qed.

(** The occurrences of the marker in a report are those of its sections. *)
Lemma count_report secs :
  Forall well_formed secs ->
  count_sub m (html_head ++ sections_text secs ++ html_tail)
  = list_sum (map (fun sec => expected (section_name sec)) secs).
Proof.
  intros Hsecs. destruct marker_head as [Hfree Hzero].
  rewrite (count_sub_app _ _ _ Hfree), Hzero.
  rewrite (count_sections_text _ _ Hsecs), marker_tail. lia.
Qed.

End Marker.

End TextFacts.

(** ** The sections of a run *)

Module SectionFacts.
Import PyStr Report PyStrFacts Base64Facts RunFacts TextFacts.

Lemma set_mem_In (k : string) (l : list string) : set_mem k l = true <-> In k l.
Proof.
  unfold set_mem. rewrite existsb_exists. split.
  - intros (x & Hin & Heq). apply String.eqb_eq in Heq. now subst.
  - intros Hin. exists k. split; [assumption | apply String.eqb_refl].
Qed.

Lemma dict_get_In {V} (d : list (string * V)) (k : string) (v : V) :
  dict_get d k = Some v -> In (k, v) d.
Proof.
  induction d as [|[k' v'] d IH]; cbn [dict_get]; [discriminate|].
  destruct (String.eqb_spec k' k) as [->|_].
  - intros [= ->]. now left.
  - intros H. right. now apply IH.
Qed.

Lemma In_dict_get {V} (d : list (string * V)) (k : string) (v : V) :
  distinct (map fst d) = true -> In (k, v) d -> dict_get d k = Some v.
Proof.
  induction d as [|[k' v'] d IH]; cbn [map fst distinct dict_get]; [easy|].
  intros Hd [Heq | Hin]; apply andb_true_iff in Hd as [Hk Hd].
  - injection Heq as -> ->. now rewrite String.eqb_refl.
  - destruct (String.eqb_spec k' k) as [->|_]; [|now apply IH].
    apply negb_true_iff in Hk.
    assert (set_mem k (map fst d) = true) as Hmem; [|congruence].
    apply set_mem_In. change k with (fst (k, v)). now apply in_map.
Qed.

Lemma filter_map_In {A B} (f : A -> option B) (l : list A) (y : B) :
  In y (filter_map f l) <-> exists x, In x l /\ f x = Some y.
Proof.
  induction l as [|x l IH]; cbn [filter_map In].
  - split; [easy | now intros (x & [] & _)].
  - destruct (f x) as [y'|] eqn:E; cbn [In]; rewrite IH; split.
    + intros [<- | (x' & Hin & Hf)]; [now exists x; split; [left|] |].
      exists x'. split; [now right | assumption].
    + intros (x' & [<- | Hin] & Hf); [left; congruence |].
      right. now exists x'.
    + intros (x' & Hin & Hf). exists x'. split; [now right | assumption].
    + intros (x' & [<- | Hin] & Hf); [congruence | now exists x'].
Qed.

Lemma filter_map_length {A B} (f : A -> option B) (l : list A) :
  List.length (filter_map f l) <= List.length l.
Proof.
  induction l as [|x l IH]; cbn [filter_map List.length]; [lia|].
  destruct (f x); cbn [List.length]; lia.
Qed.

Lemma list_sum_ones {A} (l : list A) :
  list_sum (map (fun _ => 1) l) = List.length l.
Proof. induction l as [|x l IH]; cbn; [reflexivity | now rewrite <- IH]. Qed.

Lemma count_filter_map_le {A B} (f : A -> option B)
  (name_a : A -> string) (name_b : B -> string) (k : string) (l : list A) :
  (forall x y, f x = Some y -> name_b y = name_a x) ->
  list_sum (map (fun y => if String.eqb (name_b y) k then 1 else 0)
              (filter_map f l))
  <= list_sum (map (fun x => if String.eqb (name_a x) k then 1 else 0) l).
Proof.
  intros Hname. induction l as [|x l IH]; [reflexivity|].
  cbn [filter_map map]. destruct (f x) as [y|] eqn:E.
  - cbn [map]. rewrite (Hname _ _ E). unfold list_sum in *. cbn [fold_right]. lia.
  - unfold list_sum in *. cbn [fold_right]. lia.
Qed.

Lemma absent_count (k : string) (l : list string) :
  set_mem k l = false ->
  list_sum (map (fun n => if String.eqb n k then 1 else 0) l) = 0.
Proof.
  induction l as [|n l IH]; [reflexivity|].
  unfold set_mem in *. cbn [existsb map]. intros H.
  apply orb_false_iff in H as [Hn Hl]. rewrite String.eqb_sym, Hn.
  unfold list_sum in *. cbn [fold_right]. now rewrite (IH Hl).
Qed.

Lemma distinct_count (k : string) (l : list string) :
  distinct l = true ->
  list_sum (map (fun n => if String.eqb n k then 1 else 0) l) <= 1.
Proof.
  induction l as [|n l IH]; cbn [distinct map]; [intros _; cbn; lia|].
  intros H. apply andb_true_iff in H as [Hn Hl].
  apply negb_true_iff in Hn. specialize (IH Hl).
  unfold list_sum in *. cbn [fold_right].
  destruct (String.eqb_spec n k) as [->|_]; [|lia].
  pose proof (absent_count k l Hn) as H0. unfold list_sum in H0. lia.
Qed.

Lemma list_sum_indicator {A} (f : A -> bool) (l : list A) :
  (0 <? list_sum (map (fun x => if f x then 1 else 0) l))%nat = existsb f l.
Proof.
  induction l as [|x l IH]; [reflexivity|].
  cbn [map list_sum fold_right existsb]. fold (list_sum (map (fun x => if f x then 1 else 0) l)).
  destruct (f x); [reflexivity|]. cbn [orb]. exact IH.
Qed.

Section Run.

Context {Figure NdArray Rng : Type}.
Variable lib : @Library Figure NdArray Rng.

Local Abbreviation pyobj := (pyobj NdArray).
Local Abbreviation works_item := (@works_item Figure).
Local Abbreviation World := (World Rng).

Lemma table_kinds :
  map (fun entry : string * (px_function * pyobj * string) =>
         (fst entry, snd (snd entry))) (PX_FUNCTIONS lib)
  = plot_kinds.
Proof. reflexivity. Qed.

Lemma table_names : keys (PX_FUNCTIONS lib) = plot_kind_names.
Proof. reflexivity. Qed.

Lemma table_length : List.length (PX_FUNCTIONS lib) = 40.
Proof. reflexivity. Qed.

Lemma names_distinct : distinct plot_kind_names = true.
Proof. vm_compute. reflexivity. Qed.

(** A plot kind has one entry in the table. *)
Lemma entry_unique px_name v v' :
  In (px_name, v) (PX_FUNCTIONS lib) -> In (px_name, v') (PX_FUNCTIONS lib) ->
  v = v'.
Proof.
  intros H H'.
  pose proof names_distinct as Hd. rewrite <- table_names in Hd.
  apply (In_dict_get _ _ _ Hd) in H. apply (In_dict_get _ _ _ Hd) in H'.
  congruence.
Qed.

(** An item of the list of [main] comes from the entry of its plot kind. *)
Lemma outcome_inv template entry item :
  outcome lib template entry = Some item ->
  exists figs,
    item = (fst entry, figs, snd (snd entry))
    /\ fst (can_use_discrete_colors lib (fst entry) (fst (fst (snd entry)))
              (snd (fst (snd entry))) (snd (snd entry))) = true
    /\ fst (comparison (fst entry) (fst (fst (snd entry))) template
              (lookup_args PNone (fst entry))) = Some figs.
Proof.
  destruct entry as [px_name [[px_fn constructor] trace_type]].
  unfold outcome. cbn [fst snd].
  destruct (fst (can_use_discrete_colors _ _ _ _ _)); [|discriminate].
  destruct (fst (comparison _ _ _ _)) as [figs|]; [|discriminate].
  intros [= <-]. now exists figs.
Qed.

Lemma working_inv template px_name figs trace_type :
  In (px_name, figs, trace_type) (working lib template) ->
  exists px_fn constructor,
    In (px_name, (px_fn, constructor, trace_type)) (PX_FUNCTIONS lib)
    /\ outcome lib template (px_name, (px_fn, constructor, trace_type))
       = Some (px_name, figs, trace_type).
Proof.
  unfold working. rewrite filter_map_In.
  intros ([n [[px_fn constructor] tt]] & Hin & Hout).
  destruct (outcome_inv _ _ _ Hout) as (figs' & Heq & _).
  cbn [fst snd] in Heq. injection Heq as -> -> ->.
  now exists px_fn, constructor.
Qed.

(** A section of the report comes from an item whose two images are
    exported. *)
Lemma section_inv works sec :
  In sec (filter_map (exported lib) works) ->
  exists fig_no fig_with png_no png_with,
    In (section_name sec, (fig_no, fig_with), snd sec) works
    /\ write_image lib fig_no "png" 700 500 2 = Ok png_no
    /\ write_image lib fig_with "png" 700 500 2 = Ok png_with
    /\ sec = (section_name sec, Base64.b64encode png_no,
              Base64.b64encode png_with, snd sec).
Proof.
  rewrite filter_map_In.
  intros ([[px_name [fig_no fig_with]] trace_type] & Hin & Hexp).
  unfold exported, export_images, embedded_png, rbind in Hexp. cbn [fst snd] in Hexp.
  destruct (write_image lib fig_no "png" 700 500 2) as [png_no|] eqn:Hno;
    [|discriminate].
  destruct (write_image lib fig_with "png" 700 500 2) as [png_with|] eqn:Hwith;
    [|discriminate].
  injection Hexp as <-. cbn [section_name snd].
  now exists fig_no, fig_with, png_no, png_with.
Qed.

Lemma sections_well_formed template :
  Forall well_formed (filter_map (exported lib) (working lib template)).
Proof.
  apply Forall_forall. intros sec Hsec.
  destruct (section_inv _ _ Hsec)
    as (fig_no & fig_with & png_no & png_with & Hin & _ & _ & ->).
  apply working_inv in Hin as (px_fn & constructor & Hin & _).
  cbn [well_formed]. repeat split.
  - rewrite <- table_kinds.
    apply (in_map (fun entry : string * (px_function * pyobj * string) =>
                     (fst entry, snd (snd entry)))) in Hin.
    exact Hin.
  - now apply b64encode_has_char.
  - now apply b64encode_has_char.
Qed.

Lemma section_open_marker : marker_ok section_open (fun _ => 1) = true.
Proof. vm_compute. reflexivity. Qed.

Lemma section_heading_markers :
  forallb
    (fun x => marker_ok (section_heading x)
                (fun px_name => if String.eqb px_name x then 1 else 0))
    plot_kind_names
  = true.
Proof. vm_compute. reflexivity. Qed.

(** The report has as many sections as items with both images exported. *)
Lemma count_sections_report template :
  count_sections (report_text lib template)
  = List.length (filter_map (exported lib) (working lib template)).
Proof.
  unfold count_sections, report_text.
  change section_open with (String "<" ("div class=" ++ q "plot-section" ++ ">")).
  rewrite (count_report _ (fun _ => 1)).
  - apply list_sum_ones.
  - exact section_open_marker.
  - apply sections_well_formed.
Qed.

(** The heading of a plot kind of the table occurs once for each of
    the sections of that plot kind. *)
Lemma heading_count template px_name :
  In px_name plot_kind_names ->
  count_sub (section_heading px_name) (report_text lib template)
  = list_sum
      (map (fun sec => if String.eqb (section_name sec) px_name then 1 else 0)
         (filter_map (exported lib) (working lib template))).
Proof.
  intros Hin. unfold report_text.
  pose proof section_heading_markers as Hall.
  rewrite forallb_forall in Hall. specialize (Hall _ Hin).
  change (section_heading px_name)
    with (String "<" ("h3>" ++ title (replace_char "_" " " px_name) ++ "</h3>"))
    in *.
  now rewrite (count_report _ _ Hall _ (sections_well_formed template)).
Qed.

(** The report has a section titled for a plot kind of the table when
    one of its sections is that of the plot kind. *)
Lemma has_section_report template px_name :
  In px_name plot_kind_names ->
  has_section (report_text lib template) px_name
  = existsb (fun sec => String.eqb (section_name sec) px_name)
      (filter_map (exported lib) (working lib template)).
Proof.
  intros Hin. unfold has_section, contains.
  rewrite (heading_count _ _ Hin).
  apply (list_sum_indicator (fun sec => String.eqb (section_name sec) px_name)).
Qed.

Lemma outcome_name template entry item :
  outcome lib template entry = Some item -> fst (fst item) = fst entry.
Proof.
  intros H. apply outcome_inv in H as (figs & -> & _). reflexivity.
Qed.

Lemma exported_name item sec :
  exported lib item = Some sec -> section_name sec = fst (fst item).
Proof.
  destruct item as [[px_name figs] trace_type]. unfold exported.
  destruct (export_images lib figs) as [[img_no img_with]|]; [|discriminate].
  now intros [= <-].
Qed.

(** A plot kind of the table has at most one section in the report. *)
Lemma heading_count_le_one template px_name :
  In px_name plot_kind_names ->
  count_sub (section_heading px_name) (report_text lib template) <= 1.
Proof.
  intros Hin. rewrite (heading_count _ _ Hin).
  etransitivity;
    [apply (count_filter_map_le (exported lib) (fun item => fst (fst item))
              section_name px_name), exported_name|].
  unfold working.
  etransitivity;
    [apply (count_filter_map_le (outcome lib template) fst
              (fun item => fst (fst item)) px_name), outcome_name|].
  rewrite <- (map_map fst (fun n => if String.eqb n px_name then 1 else 0)).
  apply distinct_count. fold (keys (PX_FUNCTIONS lib)).
  rewrite table_names. exact names_distinct.
Qed.

(** No section without an item of that plot kind in the list of [main]. *)
Lemma no_item_no_section template px_name :
  In px_name plot_kind_names ->
  (forall figs trace_type,
     In (px_name, figs, trace_type) (working lib template) ->
     exported lib (px_name, figs, trace_type) = None) ->
  has_section (report_text lib template) px_name = false.
Proof.
  intros Hin Hnone. rewrite (has_section_report _ _ Hin).
  apply not_true_iff_false. rewrite existsb_exists.
  intros (sec & Hsec & Hname). apply String.eqb_eq in Hname.
  pose proof Hsec as Hsec'. rewrite filter_map_In in Hsec'.
  destruct Hsec' as ([[n figs] tt] & Hitem & Hexp).
  assert (n = px_name) as ->.
  { unfold exported in Hexp.
    destruct (export_images lib figs) as [[img_no img_with]|]; [|discriminate].
    injection Hexp as <-. exact Hname. }
  rewrite (Hnone _ _ Hitem) in Hexp. discriminate.
Qed.

End Run.

End SectionFacts.

(** ** Unguarded exceptions *)

Module SignalFacts.

Section Run.

Context {Figure NdArray Rng : Type}.
Variable lib : @Library Figure NdArray Rng.

Local Abbreviation pyobj := (pyobj NdArray).
Local Abbreviation World := (World Rng).

Lemma bind_returned {A B} (m : Signals.M Rng A) (k : A -> Signals.M Rng B)
  (w w' : World) (a : A) :
  m w = (Signals.Returned a, w') -> Signals.bind m k w = k a w'.
Proof. intros H. unfold Signals.bind. now rewrite H. Qed.

Lemma bind_raised {A B} (m : Signals.M Rng A) (k : A -> Signals.M Rng B)
  (w w' : World) (r : Signals.raised) :
  m w = (Signals.Raised r, w') -> Signals.bind m k w = (Signals.Raised r, w').
Proof. intros H. unfold Signals.bind. now rewrite H. Qed.

(** Over the calls kept as terms, the table is [args_map]. *)
Lemma args_table_as_term (img : pyobj) :
  Signals.args_table
    (px_data "tips") (px_data "iris")
    (query (px_data "gapminder") "year == 2007")
    (query (px_data "gapminder") "country in ['Canada', 'Botswana', 'Brazil']")
    (px_data "wind") (px_data "election")
    (pd_DataFrame Signals.timeline_records)
    (head (px_data "tips") 20)
    (px_Constant "all") (px_Constant "all") (px_Constant "all")
    (PLib "pd.concat"
       [PList [pd_DataFrame Signals.funnel_montreal;
               pd_DataFrame Signals.funnel_toronto]]
       [("axis", PInt 0)])
    img
  = args_map img.
Proof. reflexivity. Qed.

Lemma args_table_keys
  (tips iris gapminder df_line wind election timeline_frame tips_head
   all_sunburst all_treemap all_icicle funnel_frame img : pyobj) :
  keys (Signals.args_table tips iris gapminder df_line wind election
          timeline_frame tips_head all_sunburst all_treemap all_icicle
          funnel_frame img)
  = keys (PX_FUNCTIONS lib).
Proof. reflexivity. Qed.

Ltac next_call :=
  cbv beta iota;
  lazymatch goal with
  | |- (match ?c with _ => _ end) = _ -> _ => destruct c; [|discriminate]
  end.

(** When [get_plot_args] returns, it has drawn the array and returns
    the entry of the table, over some values of the data calls. *)
Lemma get_plot_args_inv data_call px_name (px_fn : @Signals.px_function Figure NdArray)
  (w w1 : World) (args : pyobj) :
  Signals.get_plot_args lib data_call px_name px_fn w = (Signals.Returned args, w1) ->
  w1 = Report.after_draw lib w
  /\ exists table,
       keys table = keys (PX_FUNCTIONS lib)
       /\ args = match dict_get table px_name with
                 | Some args => args
                 | None => PDict []
                 end.
Proof.
  unfold Signals.get_plot_args, Signals.bind, Signals.lift.
  do 13 next_call. cbv beta iota.
  unfold Signals.embed, random_rand, Signals.ret, Report.after_draw.
  destruct (np_random_rand lib 10 10 (rng w)) as [array g].
  cbn [Signals.of_result fst snd].
  intros H. pose proof (f_equal snd H) as Hw.
  apply (f_equal (fun out =>
                    match fst out with
                    | Signals.Returned found => found
                    | Signals.Raised _ => args
                    end)) in H.
  cbn [fst snd] in H, Hw.
  split; [now rewrite <- Hw|].
  eexists. split; [|symmetry; exact H]. apply args_table_keys.
Qed.

(** With data calls that return, [get_plot_args] is that of the
    embedding above. *)
Lemma get_plot_args_as_term px_name
  (px_fn : @Signals.px_function Figure NdArray) (w : World) :
  Signals.get_plot_args lib Signals.as_term px_name px_fn w
  = (Signals.Returned (Report.lookup_args (Report.drawn lib w) px_name),
     Report.after_draw lib w).
Proof.
  unfold Signals.get_plot_args, Signals.bind, Signals.lift, Signals.as_term,
    Signals.embed, random_rand, Signals.ret, Report.after_draw, Report.drawn,
    Report.lookup_args.
  cbv beta iota.
  destruct (np_random_rand lib 10 10 (rng w)) as [a g].
  cbn [Signals.of_result fst snd].
  now rewrite <- args_table_as_term.
Qed.

(** The finer embedding of [create_plot_comparison] is the one above
    when the data calls return and the px function raises no signal. *)
Lemma create_plot_comparison_as_term px_name (px_fn : px_function)
  (constructor : pyobj) (trace_type : string) (template : pyobj) (w : World) :
  Signals.create_plot_comparison lib Signals.as_term px_name
    (Signals.guarded px_fn) constructor trace_type template w
  = Signals.embed
      (create_plot_comparison lib px_name px_fn constructor trace_type template)
      w.
Proof.
  unfold Signals.create_plot_comparison, Signals.embed.
  rewrite (bind_returned _ _ _ _ _ (get_plot_args_as_term _ _ _)).
  rewrite RunFacts.create_plot_comparison_run.
  unfold Report.comparison, Report.build_figures.
  destruct (Report.lookup_args (Report.drawn lib w) px_name) as
    [|b|z|digits places|s|l|d|name|cls attrs|fn args kw|a];
    try reflexivity;
    try (destruct (negb (truthy _)); reflexivity).
  destruct d as [|entry d]; [reflexivity|].
  cbn [truthy negb]. unfold Signals.try_catch, Signals.bind, Signals.lift.
  cbn [Signals.call_px call_px with_template Signals.of_result rbind].
  unfold Signals.guarded.
  destruct (px_fn (entry :: d)) as [fig_no|e]; [|reflexivity].
  cbn [Signals.of_result Signals.call_px call_px rbind].
  destruct (px_fn (dict_set (entry :: d) "template" template)) as [fig_with|e];
    reflexivity.
Qed.

End Run.

End SignalFacts.

(** * The claims *)

Section Claims.

Context {Figure NdArray Rng : Type}.
Variable lib : @Library Figure NdArray Rng.

Local Abbreviation pyobj := (pyobj NdArray).
Local Abbreviation World := (World Rng).

Lemma args_map_keys (img : pyobj) :
  keys (args_map img) = keys (PX_FUNCTIONS lib).
Proof. reflexivity. Qed.

(** C8: the example-arguments table and the function table have the
    same keys (in the same order): a string is a key of [args_map]
    exactly when it is a key of [PX_FUNCTIONS]. *)
Theorem args_map_keys_are_px_functions_keys (img : pyobj) :
  keys (args_map img) = keys (PX_FUNCTIONS lib)
  /\ forall k, In k (keys (args_map img)) <-> In k (keys (PX_FUNCTIONS lib)).
Proof.
  split; [apply args_map_keys | intros k; now rewrite args_map_keys].
Qed.

Lemma comparison_shape px_name (px_fn : @px_function Figure NdArray) template args :
  match Report.comparison px_name px_fn template args with
  | (Some _, None) | (None, Some _) => True
  | _ => False
  end.
Proof.
  unfold Report.comparison.
  destruct args; try exact I; destruct (negb (truthy _)); try exact I;
    now destruct (Report.build_figures _ _ _).
Qed.

(** C9, amended: [create_plot_comparison] calls [get_plot_args] before
    its [try]: what [get_plot_args] raises leaves [create_plot_comparison].
    When [get_plot_args] returns and the px function raises no signal
    (only instances of [Exception]), [create_plot_comparison] returns, and
    what it returns is either a pair of figures and no reason, or no
    figures and a reason.  When the arguments looked up are [None] the
    reason is "No test data configured for ..."; when they are the empty
    dict, which is what a plot kind outside the table gets, the reason is
    "Missing required arguments for ..."; the two reasons differ.  A
    signal of the px function leaves [create_plot_comparison]. *)
Theorem create_plot_comparison_returns_figures_or_reason
  (data_call : string -> list pyobj -> list (string * pyobj)
               -> Signals.outcome pyobj)
  (px_name : string) (px_fn : Signals.px_function) (constructor : pyobj)
  (trace_type : string) (template : pyobj) (w : World) :
  (forall r w1,
     Signals.get_plot_args lib data_call px_name px_fn w = (Signals.Raised r, w1) ->
     Signals.create_plot_comparison lib data_call px_name px_fn constructor
       trace_type template w
     = (Signals.Raised r, w1))
  /\ (forall args w1,
        Signals.get_plot_args lib data_call px_name px_fn w
        = (Signals.Returned args, w1) ->
        (forall kwargs name, px_fn kwargs <> Signals.Raised (Signals.Sig name)) ->
        exists out,
          Signals.create_plot_comparison lib data_call px_name px_fn constructor
            trace_type template w
          = (Signals.Returned out, w1)
          /\ match out with
             | (Some _, None) | (None, Some _) => True
             | _ => False
             end
          /\ (args = PNone ->
              out = (None, Some ("No test data configured for " ++ px_name)))
          /\ (args = PDict [] ->
              out = (None, Some ("Missing required arguments for " ++ px_name)))
          /\ (~ In px_name (keys (PX_FUNCTIONS lib)) -> args = PDict [])
          /\ "No test data configured for " ++ px_name
             <> "Missing required arguments for " ++ px_name)
  /\ (forall kwargs w1 name,
        Signals.get_plot_args lib data_call px_name px_fn w
        = (Signals.Returned (PDict kwargs), w1) ->
        kwargs <> [] ->
        px_fn kwargs = Signals.Raised (Signals.Sig name) ->
        Signals.create_plot_comparison lib data_call px_name px_fn constructor
          trace_type template w
        = (Signals.Raised (Signals.Sig name), w1)).
Proof.
  split; [|split].
  - intros r w1 H. unfold Signals.create_plot_comparison.
    now rewrite (SignalFacts.bind_raised _ _ _ _ _ H).
  - intros args w1 H Hsig. unfold Signals.create_plot_comparison.
    rewrite (SignalFacts.bind_returned _ _ _ _ _ H).
    assert (~ In px_name (keys (PX_FUNCTIONS lib)) -> args = PDict []) as Hout.
    { intros Hout.
      destruct (SignalFacts.get_plot_args_inv lib _ _ _ _ _ _ H)
        as (_ & table & Hkeys & ->).
      destruct (dict_get table px_name) as [found|] eqn:E; [|reflexivity].
      exfalso. apply Hout. apply SectionFacts.dict_get_In in E.
      rewrite <- Hkeys. change px_name with (fst (px_name, found)).
      now apply in_map. }
    assert (forall out : option (Figure * Figure) * option string,
              match out with
              | (Some _, None) | (None, Some _) => True
              | _ => False
              end ->
              args <> PNone -> args <> PDict [] ->
              match out with
              | (Some _, None) | (None, Some _) => True
              | _ => False
              end
              /\ (args = PNone ->
                  out = (None, Some ("No test data configured for " ++ px_name)))
              /\ (args = PDict [] ->
                  out = (None,
                         Some ("Missing required arguments for " ++ px_name)))
              /\ (~ In px_name (keys (PX_FUNCTIONS lib)) -> args = PDict [])
              /\ "No test data configured for " ++ px_name
                 <> "Missing required arguments for " ++ px_name) as Hrest.
    { intros out Hshape Hnone Hempty.
      split; [exact Hshape|]. split; [congruence|]. split; [congruence|].
      split; [exact Hout | discriminate]. }
    destruct args as [|b|z|digits places|s|l|d|cname|cls attrs|fn fargs kw|a];
      try (destruct (negb (truthy _)) eqn:Htruthy;
           [eexists; split; [reflexivity|];
            split; [exact I|]; split; [discriminate|];
            split; [discriminate|]; split; [exact Hout | discriminate]
           |eexists; split; [reflexivity|]; apply Hrest;
            [exact I | discriminate | discriminate]]).
    + eexists. split; [reflexivity|]. split; [exact I|].
      split; [reflexivity|]. split; [discriminate|].
      split; [exact Hout | discriminate].
    + destruct d as [|entry d].
      * eexists. split; [reflexivity|]. split; [exact I|].
        split; [discriminate|]. split; [reflexivity|].
        split; [exact Hout | discriminate].
      * cbn [truthy negb].
        unfold Signals.try_catch, Signals.bind, Signals.lift, Signals.ret.
        cbn [Signals.call_px with_template Signals.of_result].
        destruct (px_fn (entry :: d)) as [fig_no|[e|name]] eqn:Hno;
          [|eexists; split; [reflexivity|]; apply Hrest;
            [exact I | discriminate | discriminate]
           |now apply Hsig in Hno].
        cbn [Signals.call_px].
        destruct (px_fn (dict_set (entry :: d) "template" template))
          as [fig_with|[e|name]] eqn:Hwith;
          [| |now apply Hsig in Hwith];
          (eexists; split; [reflexivity|]; apply Hrest;
           [exact I | discriminate | discriminate]).
  - intros kwargs w1 name H Hne Hsig. unfold Signals.create_plot_comparison.
    rewrite (SignalFacts.bind_returned _ _ _ _ _ H).
    destruct kwargs as [|entry d]; [congruence|].
    cbn [truthy negb].
    unfold Signals.try_catch, Signals.bind, Signals.lift.
    cbn [Signals.call_px]. now rewrite Hsig.
Qed.

(** C10: the entry of [timeline] carries the string "timeline" for a
    constructor.  The test of that string is the test of [go.Bar]: it
    builds [go.Bar(marker=dict(color="red"))] and its result is what this
    trace shows, true when the trace has a [marker] that has a [color],
    false when [go.Bar] raises or the trace has no such marker.  On a
    value that is neither that string nor a type the test is false. *)
Theorem timeline_is_tested_as_bar :
  dict_get (PX_FUNCTIONS lib) "timeline"
  = Some (px lib "timeline", PStr "timeline", "bar")
  /\ test_trace_supports_marker_color lib (PStr "timeline")
     = test_trace_supports_marker_color lib (go "Bar")
  /\ test_trace_supports_marker_color lib (PStr "timeline")
     = match new lib "Bar" (marker_kwargs "red") with
       | Ok trace =>
           hasattr trace "marker"
           && match getattr trace "marker" with
              | Ok marker => hasattr marker "color"
              | Raise _ => false
              end
       | Raise _ => false
       end
  /\ (forall trace marker : pyobj,
        new lib "Bar" (marker_kwargs "red") = Ok trace ->
        getattr trace "marker" = Ok marker ->
        hasattr marker "color" = true ->
        test_trace_supports_marker_color lib (PStr "timeline") = true)
  /\ (forall e,
        new lib "Bar" (marker_kwargs "red") = Raise e ->
        test_trace_supports_marker_color lib (PStr "timeline") = false)
  /\ (forall trace : pyobj,
        new lib "Bar" (marker_kwargs "red") = Ok trace ->
        hasattr trace "marker" = false ->
        test_trace_supports_marker_color lib (PStr "timeline") = false)
  /\ (forall trace marker : pyobj,
        new lib "Bar" (marker_kwargs "red") = Ok trace ->
        getattr trace "marker" = Ok marker ->
        hasattr marker "color" = false ->
        test_trace_supports_marker_color lib (PStr "timeline") = false)
  /\ forall v : pyobj,
       isinstance_type v = false -> v <> PStr "timeline" ->
       test_trace_supports_marker_color lib v = false.
Proof.
  assert (test_trace_supports_marker_color lib (PStr "timeline")
          = match new lib "Bar" (marker_kwargs "red") with
            | Ok trace =>
                hasattr trace "marker"
                && match getattr trace "marker" with
                   | Ok marker => hasattr marker "color"
                   | Raise _ => false
                   end
            | Raise _ => false
            end) as Hprobe.
  { unfold test_trace_supports_marker_color.
    change (eq_str (PStr "timeline") "timeline") with true.
    cbn [call go].
    destruct (new lib "Bar" (marker_kwargs "red")) as [trace|e];
      cbn [rbind try_except]; [|reflexivity].
    destruct (hasattr trace "marker"); cbn [andb try_except]; [|reflexivity].
    now destruct (getattr trace "marker"). }
  split; [reflexivity|]. split; [reflexivity|]. split; [exact Hprobe|].
  split; [|split; [|split; [|split]]].
  - intros trace marker Hbar Hmarker Hcolor.
    assert (hasattr trace "marker" = true) as Hhas.
    { unfold hasattr, getattr in *. destruct trace; try discriminate.
      now destruct (dict_get attrs "marker"). }
    now rewrite Hprobe, Hbar, Hhas, Hmarker.
  - intros e Hbar. now rewrite Hprobe, Hbar.
  - intros trace Hbar Hhas. now rewrite Hprobe, Hbar, Hhas.
  - intros trace marker Hbar Hmarker Hcolor.
    rewrite Hprobe, Hbar, Hmarker, Hcolor. apply andb_false_r.
  - intros v Htype Hne. unfold test_trace_supports_marker_color.
    rewrite Htype.
    destruct (eq_str v "timeline") eqn:E; [|reflexivity].
    destruct v; try discriminate.
    cbn [eq_str] in E. apply String.eqb_eq in E. congruence.
Qed.

Lemma trace_list_run (trace : pyobj -> string -> pyobj) (constructor : pyobj) :
  (forall color, In color template_colors ->
     call lib constructor (marker_kwargs color) = Ok (trace constructor color)) ->
  rfor_each template_colors
    (fun trace_list color =>
       trace <-- call lib constructor (marker_kwargs color) ;;
       Ok (trace_list ++ [trace])%list)%py
    []
  = Ok (map (trace constructor) template_colors).
Proof.
  intros H. cbn [rfor_each template_colors].
  rewrite !H by (cbn; tauto). reflexivity.
Qed.

(** C7: when every constructor of the table accepts
    [marker=dict(color=color)] for the three colors, the template is the
    merge of the default template of the library with a template whose
    data holds, for each of the 13 trace types, the three traces built
    with purple, lime and magenta, in that order, from a marker color and
    nothing else. *)
Theorem create_comprehensive_template_merges_three_colors
  (trace : pyobj -> string -> pyobj) :
  (forall trace_type constructor color,
     In (trace_type, constructor) trace_constructors ->
     In color template_colors ->
     call lib constructor (marker_kwargs color) = Ok (trace constructor color)) ->
  create_comprehensive_template lib
  = merge_templates lib (pio_templates_plotly lib) (Report.custom_template trace)
  /\ List.length (@trace_constructors NdArray) = 13
  /\ template_colors = ["purple"; "lime"; "magenta"]
  /\ (forall color,
        @marker_kwargs NdArray color
        = [("marker", PDict [("color", PStr color)])])
  /\ forall trace_type constructor,
       In (trace_type, constructor) trace_constructors ->
       (data <-- getattr (Report.custom_template trace) "data" ;;
        getattr data trace_type)%py
       = Ok (PList [trace constructor "purple"; trace constructor "lime";
                    trace constructor "magenta"]).
Proof.
  intros H.
  assert (forall trace_type constructor,
            In (trace_type, constructor) trace_constructors ->
            rfor_each template_colors
              (fun trace_list color =>
                 trace <-- call lib constructor (marker_kwargs color) ;;
                 Ok (trace_list ++ [trace])%list)%py
              []
            = Ok (map (trace constructor) template_colors)) as Hlist.
  { intros trace_type constructor Hin. apply trace_list_run.
    intros color Hcolor. now apply (H trace_type). }
  split.
  - unfold create_comprehensive_template.
    cbn [rfor_each trace_constructors].
    repeat (erewrite Hlist by (cbn; tauto); cbn [rbind]).
    reflexivity.
  - split; [reflexivity|]. split; [reflexivity|]. split; [reflexivity|].
    intros trace_type constructor Hin. cbn in Hin.
    repeat (destruct Hin as [Hin | Hin]; [injection Hin as <- <-; reflexivity|]).
    destruct Hin.
Qed.

(** C6: the report of a run has at most as many sections as
    [PX_FUNCTIONS] has entries, which is 40; and a plot kind of the
    table has at most one section. *)
Theorem report_sections_at_most_px_functions (w : World) (text : string) :
  Report.report lib w = Some text ->
  Report.count_sections text <= List.length (PX_FUNCTIONS lib)
  /\ List.length (PX_FUNCTIONS lib) = 40
  /\ forall px_name,
       In px_name (keys (PX_FUNCTIONS lib)) ->
       PyStr.count_sub (Report.section_heading px_name) text <= 1.
Proof.
  intros Hreport.
  destruct (RunFacts.report_inv lib w text Hreport) as (template & _ & ->).
  rewrite SectionFacts.count_sections_report.
  split; [|split; [reflexivity|]].
  - unfold Report.working.
    etransitivity; apply SectionFacts.filter_map_length.
  - intros px_name Hkind. now apply SectionFacts.heading_count_le_one.
Qed.

(** C3: the report of a run has no section for a plot kind of the
    exclusion set [no_discrete]. *)
Theorem excluded_plot_kinds_have_no_section (w : World) (text px_name : string) :
  In px_name no_discrete ->
  Report.report lib w = Some text ->
  Report.has_section text px_name = false.
Proof.
  intros Hexcluded Hreport.
  destruct (RunFacts.report_inv lib w text Hreport) as (template & _ & ->).
  apply SectionFacts.no_item_no_section.
  - cbn in Hexcluded. cbn.
    repeat (destruct Hexcluded as [<- | Hexcluded]; [tauto|]).
    destruct Hexcluded.
  - intros figs trace_type Hitem. exfalso.
    apply SectionFacts.working_inv in Hitem
      as (px_fn & constructor & _ & Hout).
    apply SectionFacts.outcome_inv in Hout as (figs' & _ & Hcan & _).
    cbn [fst snd] in Hcan. unfold can_use_discrete_colors in Hcan.
    apply SectionFacts.set_mem_In in Hexcluded.
    rewrite Hexcluded in Hcan. discriminate.
Qed.




(** C5: what a run computes does not depend on the world it starts in,
    so not on the state of the random generator: the list of figures of
    the loop of [main], the text of [generate_html_content] for a given
    list, and the report are the same in two runs.  A round of the loop
    on [imshow] changes nothing, it does not even draw the array; and
    the arguments of every other plot kind are the same whatever array
    was drawn. *)
Theorem figure_data_is_the_same_in_two_runs (template : pyobj) (w1 w2 : World) :
  fst (main_loop lib template w1) = fst (main_loop lib template w2)
  /\ (forall works,
        fst (generate_html_content lib works w1)
        = fst (generate_html_content lib works w2))
  /\ Report.report lib w1 = Report.report lib w2
  /\ (forall px_fn constructor trace_type works w,
        main_body lib template works
          ("imshow", (px_fn, constructor, trace_type)) w
        = (Ok works, w))
  /\ (forall img img' px_name,
        px_name <> "imshow" ->
        @Report.lookup_args NdArray img px_name = Report.lookup_args img' px_name).
Proof.
  split; [|split; [|split; [|split]]].
  - destruct (RunFacts.main_loop_run lib template w1) as (w1' & -> & _).
    destruct (RunFacts.main_loop_run lib template w2) as (w2' & -> & _).
    reflexivity.
  - intros works. now rewrite !RunFacts.generate_html_content_run.
  - now rewrite !RunFacts.report_eq.
  - intros. unfold main_body, can_use_discrete_colors.
    change (set_mem "imshow" no_discrete) with true. reflexivity.
  - intros. now apply RunFacts.lookup_args_static.
Qed.

Lemma comparison_eq px_name (px_fn : @px_function Figure NdArray) template args :
  args <> PNone -> truthy args = true ->
  Report.comparison px_name px_fn template args
  = match Report.build_figures px_fn template args with
    | Ok figs => (Some figs, None)
    | Raise e => (None, Some (str_of_exn e))
    end.
Proof.
  intros Hne Htruthy. unfold Report.comparison. rewrite Htruthy.
  destruct args; try reflexivity. congruence.
Qed.

(** C1, amended: when the template is built and the report file is
    written, a run in which a plot kind raises while its figures are
    built or while its images are exported still returns, the report has
    no section for that plot kind and has the section of every item that
    is exported.  An exception of the export is printed in a warning with
    its text; an exception raised while the figures are built is returned
    by [create_plot_comparison] as the reason. *)
Theorem failures_are_caught_and_omitted
  (template : pyobj) (st : Report.stage) (px_name : string) (e : exn)
  (w : World) :
  create_comprehensive_template lib = Ok template ->
  write_text lib Report.report_path (Report.report_text lib template) = None ->
  Report.raises_at lib template st px_name e ->
  exists w',
    main lib w = (Ok tt, w')
    /\ Report.report lib w = Some (Report.report_text lib template)
    /\ Report.has_section (Report.report_text lib template) px_name = false
    /\ (forall item sec,
          In item (Report.working lib template) ->
          Report.exported lib item = Some sec ->
          Report.has_section (Report.report_text lib template)
            (Report.section_name sec) = true)
    /\ match st with
       | Report.Constructing =>
           forall px_fn constructor trace_type w0,
             In (px_name, (px_fn, constructor, trace_type)) (PX_FUNCTIONS lib) ->
             exists w1,
               create_plot_comparison lib px_name px_fn constructor trace_type
                 template w0
               = (Ok (None, Some (str_of_exn e)), w1)
       | Report.Exporting =>
           In ("    Warning: Could not generate images for " ++ px_name ++ ": "
               ++ str_of_exn e) (console w')
       end.
Proof.
  intros Htemplate Hwrite
    (px_fn & constructor & trace_type & Hentry & Hcan & Hargs & Htruthy & Hraise).
  destruct (RunFacts.main_run lib template w Htemplate Hwrite)
    as (w' & Hmain & _ & Hconsole).
  exists w'. split; [exact Hmain|].
  split; [now apply RunFacts.report_run|].
  pose proof (comparison_eq px_name px_fn template _ Hargs Htruthy) as Hcmp.
  assert (Hname : In px_name Report.plot_kind_names).
  { rewrite <- (SectionFacts.table_names lib).
    apply (in_map fst) in Hentry. exact Hentry. }
  split; [|split].
  - apply SectionFacts.no_item_no_section; [exact Hname|].
    intros figs' trace_type' Hitem.
    apply SectionFacts.working_inv in Hitem
      as (px_fn' & constructor' & Hentry' & Hout).
    pose proof (SectionFacts.entry_unique lib _ _ _ Hentry Hentry') as Heq.
    injection Heq as <- <- <-.
    apply SectionFacts.outcome_inv in Hout as (figs'' & Hit & _ & Hfigs).
    cbn [fst snd] in Hit, Hfigs. injection Hit as <-.
    rewrite Hcmp in Hfigs. destruct st.
    + rewrite Hraise in Hfigs. discriminate.
    + destruct Hraise as (figs & Hbuild & Hexport).
      rewrite Hbuild in Hfigs. injection Hfigs as <-.
      unfold Report.exported. now rewrite Hexport.
  - intros item sec Hitem Hsec.
    assert (In sec (Report.filter_map (Report.exported lib)
                      (Report.working lib template))) as Hin.
    { apply SectionFacts.filter_map_In. now exists item. }
    pose proof (SectionFacts.sections_well_formed lib template) as Hwf.
    rewrite Forall_forall in Hwf. specialize (Hwf _ Hin).
    destruct sec as [[[n img_no] img_with] tt]. destruct Hwf as (Hkind & _).
    cbn [Report.section_name].
    rewrite SectionFacts.has_section_report
      by (apply (in_map fst) in Hkind; exact Hkind).
    apply existsb_exists. exists (n, img_no, img_with, tt).
    split; [exact Hin | apply String.eqb_refl].
  - destruct st.
    + intros px_fn' constructor' trace_type' w0 Hentry'.
      pose proof (SectionFacts.entry_unique lib _ _ _ Hentry Hentry') as Heq.
      injection Heq as <- <- <-.
      eexists. rewrite RunFacts.create_plot_comparison_run.
      rewrite (RunFacts.lookup_args_static _ PNone px_name)
        by (eapply RunFacts.eligible_not_imshow; exact Hcan).
      now rewrite Hcmp, Hraise.
    + destruct Hraise as (figs & Hbuild & Hexport).
      assert (In (px_name, figs, trace_type) (Report.working lib template))
        as Hitem.
      { apply SectionFacts.filter_map_In.
        exists (px_name, (px_fn, constructor, trace_type)).
        split; [exact Hentry|]. unfold Report.outcome.
        now rewrite Hcan, Hcmp, Hbuild. }
      specialize (Hconsole _ Hitem). unfold Report.export_line in Hconsole.
      now rewrite Hexport in Hconsole.
Qed.

End Claims.

(** * The claims on the small instance *)

(** C10 at [Demo.lib]: [go.Bar] builds a trace whose marker has a color. *)
Lemma timeline_is_tested_as_bar_witness :
  test_trace_supports_marker_color Demo.lib (PStr "timeline") = true.
Proof.
  exact (proj1 (proj2 (proj2 (proj2 (timeline_is_tested_as_bar Demo.lib))))
           (PInst "Bar" [("marker", PInst "Marker" [("color", PStr "red")])])
           (PInst "Marker" [("color", PStr "red")])
           eq_refl eq_refl eq_refl).
Defined.

(** C9 as stated fails: when the data set of tips cannot be loaded,
    [create_plot_comparison] raises what [px.data.tips()] raises, for
    [bar] at [Demo.lib]; and when the px function is interrupted from
    the keyboard, it raises the signal. *)
Lemma create_plot_comparison_can_raise :
  Signals.create_plot_comparison Demo.lib DemoSignals.no_tips "bar"
    (Signals.guarded (px Demo.lib "bar")) (go "Bar") "bar" Demo.template
    Demo.world
  = (Signals.Raised (Signals.Exc (Exception "tips.csv.gz not found")),
     Demo.world)
  /\ Signals.create_plot_comparison Demo.lib Signals.as_term "bar"
       DemoSignals.interrupted (go "Bar") "bar" Demo.template Demo.world
     = (Signals.Raised (Signals.Sig "KeyboardInterrupt"),
        Report.after_draw Demo.lib Demo.world).
Proof. split; vm_compute; reflexivity. Qed.

(** C9, amended, at [Demo.lib]: with the data sets loaded, [bar] gives
    its two figures. *)
Lemma create_plot_comparison_returns_figures_or_reason_witness :
  exists out,
    Signals.create_plot_comparison Demo.lib Signals.as_term "bar"
      (Signals.guarded (px Demo.lib "bar")) (go "Bar") "bar" Demo.template
      Demo.world
    = (Signals.Returned out, Report.after_draw Demo.lib Demo.world)
    /\ out = (Some ("bar", "bar+template"), None).
Proof.
  destruct (proj1 (proj2 (create_plot_comparison_returns_figures_or_reason
                            Demo.lib Signals.as_term "bar"
                            (Signals.guarded (px Demo.lib "bar")) (go "Bar")
                            "bar" Demo.template Demo.world))
              (Report.lookup_args (Report.drawn Demo.lib Demo.world) "bar")
              (Report.after_draw Demo.lib Demo.world))
    as (out & Hout & _).
  - vm_compute. reflexivity.
  - intros kwargs name. unfold Signals.guarded.
    destruct (px Demo.lib "bar" kwargs); discriminate.
  - exists out. split; [exact Hout|].
    vm_compute in Hout. now injection Hout as <-.
Defined.

(** C7 at [Demo.lib]: every class but [Image] builds a trace from the
    keywords it is given. *)
Lemma create_comprehensive_template_merges_three_colors_witness :
  create_comprehensive_template Demo.lib
  = merge_templates Demo.lib (pio_templates_plotly Demo.lib)
      (Report.custom_template
         (fun constructor color =>
            match constructor with
            | PType cls => Demo.trace_of cls (marker_kwargs color)
            | _ => PNone
            end)).
Proof.
  apply (create_comprehensive_template_merges_three_colors Demo.lib
           (fun constructor color =>
              match constructor with
              | PType cls => Demo.trace_of cls (marker_kwargs color)
              | _ => PNone
              end)).
  intros trace_type constructor color Hin Hcolor. cbn in Hin.
  repeat (destruct Hin as [Hin | Hin]; [injection Hin as <- <-; reflexivity|]).
  destruct Hin.
Defined.

Lemma demo_report : Report.report Demo.lib Demo.world = Some Demo.html.
Proof. vm_compute. reflexivity. Qed.

(** C6 at [Demo.lib]: the report has one section. *)
Lemma report_sections_at_most_px_functions_witness :
  Report.count_sections Demo.html <= 40.
Proof.
  assert (Hreport : Report.report Demo.lib Demo.world = Some Demo.html)
    by (vm_compute; reflexivity).
  exact (proj1 (report_sections_at_most_px_functions Demo.lib Demo.world
                  Demo.html Hreport)).
Defined.

(** C3 at [Demo.lib]: no section for [imshow]. *)
Lemma excluded_plot_kinds_have_no_section_witness :
  Report.has_section Demo.html "imshow" = false.
Proof.
  apply (excluded_plot_kinds_have_no_section Demo.lib Demo.world Demo.html).
  - cbn. tauto.
  - vm_compute. reflexivity.
Defined.




(** C1 as stated fails at [Demo.lib]: [px.scatter] raises [boom] while
    the figures of [scatter] are built, and no text on the console after
    the run holds [boom]. *)
Lemma construction_failure_is_not_logged :
  create_comprehensive_template Demo.lib = Ok Demo.template
  /\ Report.raises_at Demo.lib Demo.template Report.Constructing "scatter"
       (Exception "boom")
  /\ ~ Report.logged Demo.lib Demo.world (Exception "boom").
Proof.
  split; [vm_compute; reflexivity|]. split.
  - exists (px Demo.lib "scatter"), (go "Scatter"), "scatter".
    split; [left; reflexivity|].
    split; [vm_compute; reflexivity|].
    split; [vm_compute; discriminate|].
    split; vm_compute; reflexivity.
  - intros (w' & text & Hmain & Hin & Hboom).
    vm_compute in Hmain. injection Hmain as <-.
    cbn [console] in Hin.
    repeat (destruct Hin as [<- | Hin]; [vm_compute in Hboom; discriminate|]).
    destruct Hin.
Qed.

(** C1, amended, at [Demo.lib]: the templated figure of [line] cannot be
    exported. *)
Lemma failures_are_caught_and_omitted_witness :
  exists w',
    main Demo.lib Demo.world = (Ok tt, w')
    /\ Report.report Demo.lib Demo.world
       = Some (Report.report_text Demo.lib Demo.template)
    /\ Report.has_section (Report.report_text Demo.lib Demo.template) "line"
       = false
    /\ (forall item sec,
          In item (Report.working Demo.lib Demo.template) ->
          Report.exported Demo.lib item = Some sec ->
          Report.has_section (Report.report_text Demo.lib Demo.template)
            (Report.section_name sec) = true)
    /\ In "    Warning: Could not generate images for line: kaleido failed"
         (console w').
Proof.
  apply (failures_are_caught_and_omitted Demo.lib Demo.template
           Report.Exporting "line" (Exception "kaleido failed") Demo.world).
  - vm_compute. reflexivity.
  - reflexivity.
  - exists (px Demo.lib "line"), (go "Scatter"), "scatter".
    split; [right; left; reflexivity|].
    split; [vm_compute; reflexivity|].
    split; [vm_compute; discriminate|].
    split; [vm_compute; reflexivity|].
    exists ("line", "line+template").
    split; vm_compute; reflexivity.
Defined.

(** * Further properties of the code *)

(** ** ASCII text *)

Module AsciiFacts.
Import PyStr.

Lemma is_ascii_app (x y : string) :
  is_ascii (x ++ y) = is_ascii x && is_ascii y.
Proof.
  induction x as [|c x IH]; [reflexivity|].
  cbn [append is_ascii]. now rewrite IH, andb_assoc.
Qed.

Lemma low_upper (c : ascii) :
  (nat_of_ascii c <? 128)%nat = true ->
  (nat_of_ascii (upper c) <? 128)%nat = true.
Proof.
  destruct c as [[] [] [] [] [] [] [] []]; intros H; vm_compute in *;
    congruence.
Qed.

Lemma low_lower (c : ascii) :
  (nat_of_ascii c <? 128)%nat = true ->
  (nat_of_ascii (lower c) <? 128)%nat = true.
Proof.
  destruct c as [[] [] [] [] [] [] [] []]; intros H; vm_compute in *;
    congruence.
Qed.

Lemma low_b64_char (c : ascii) :
  Base64.b64_char c = true -> (nat_of_ascii c <? 128)%nat = true.
Proof.
  destruct c as [[] [] [] [] [] [] [] []]; intros H; vm_compute in *;
    congruence.
Qed.

Lemma is_ascii_map (f : ascii -> ascii) (s : string) :
  (forall c, (nat_of_ascii c <? 128)%nat = true ->
             (nat_of_ascii (f c) <? 128)%nat = true) ->
  is_ascii s = true -> is_ascii (map_str f s) = true.
Proof.
  intros Hf. induction s as [|c s IH]; [reflexivity|].
  cbn [is_ascii map_str]. intros H. apply andb_true_iff in H as [Hc Hs].
  now rewrite (Hf c Hc), (IH Hs).
Qed.

Lemma is_ascii_capitalize (s : string) :
  is_ascii s = true -> is_ascii (capitalize s) = true.
Proof.
  destruct s as [|c s]; [reflexivity|].
  cbn [is_ascii capitalize]. intros H. apply andb_true_iff in H as [Hc Hs].
  now rewrite (low_upper c Hc), (is_ascii_map lower s low_lower Hs).
Qed.

Lemma is_ascii_title_from (prev : bool) (s : string) :
  is_ascii s = true -> is_ascii (title_from prev s) = true.
Proof.
  revert prev. induction s as [|c s IH]; intros prev; [reflexivity|].
  cbn [is_ascii title_from]. intros H. apply andb_true_iff in H as [Hc Hs].
  destruct (is_cased c); cbn [is_ascii]; rewrite (IH _ Hs), andb_true_r;
    [|exact Hc].
  destruct prev; [now apply low_lower | now apply low_upper].
Qed.

Lemma is_ascii_heading (px_name : string) :
  is_ascii px_name = true ->
  is_ascii (title (replace_char "_" " " px_name)) = true.
Proof.
  intros H. apply is_ascii_title_from. apply is_ascii_map; [|exact H].
  intros c Hc. now destruct (Ascii.eqb c "_").
Qed.

Lemma is_ascii_b64encode (bs : list byte) :
  is_ascii (Base64.b64encode bs) = true.
Proof.
  unfold Base64.b64encode.
  pose proof (Base64Facts.encode_b64_chars bs) as H.
  induction (Base64.encode bs) as [|c l IH]; [reflexivity|].
  cbn [forallb] in H. apply andb_true_iff in H as [Hc Hl].
  cbn [string_of_list_ascii is_ascii].
  now rewrite (low_b64_char c Hc), (IH Hl).
Qed.

Lemma is_ascii_code_display (trace_type : string) :
  is_ascii trace_type = true ->
  is_ascii (generate_template_code_display trace_type) = true.
Proof.
  intros H. unfold generate_template_code_display, q. cbn [fold_left].
  assert (is_ascii (get_constructor_name trace_type) = true) as Hname.
  { unfold get_constructor_name.
    destruct (dict_get constructor_map trace_type) as [name|] eqn:E;
      [|now apply is_ascii_capitalize].
    unfold constructor_map in E. cbn [dict_get] in E.
    repeat match type of E with
           | (if ?b then _ else _) = _ =>
               destruct b; [injection E as <-; reflexivity|]
           end.
    discriminate. }
  rewrite !is_ascii_app, H, Hname. reflexivity.
Qed.

Lemma is_ascii_plot_section (px_name img_no img_with template_code : string) :
  is_ascii px_name = true -> is_ascii img_no = true ->
  is_ascii img_with = true -> is_ascii template_code = true ->
  is_ascii (plot_section px_name img_no img_with template_code) = true.
Proof.
  intros Hname Hno Hwith Hcode. unfold plot_section, q.
  rewrite !is_ascii_app, (is_ascii_heading px_name Hname), Hname, Hno, Hwith,
    Hcode.
  reflexivity.
Qed.

Section Run.

Context {Figure NdArray Rng : Type}.
Variable lib : @Library Figure NdArray Rng.

(** The page of items with ASCII plot kinds and trace types is ASCII. *)
Lemma is_ascii_page (works : list (@works_item Figure)) :
  Forall (fun item : @works_item Figure =>
            is_ascii (fst (fst item)) = true /\ is_ascii (snd item) = true)
    works ->
  is_ascii
    (html_head
     ++ Report.sections_text (Report.filter_map (Report.exported lib) works)
     ++ html_tail)
  = true.
Proof.
  intros Hworks. rewrite !is_ascii_app.
  assert (forall secs : list Report.section_data,
            (forall sec, In sec secs -> is_ascii (Report.render sec) = true) ->
            is_ascii (Report.sections_text secs) = true) as Hsecs.
  { induction secs as [|sec secs IH]; intros H; [reflexivity|].
    cbn [Report.sections_text fold_right]. rewrite is_ascii_app.
    rewrite (H sec) by now left.
    apply IH. intros sec' Hin. apply H. now right. }
  rewrite Hsecs; [reflexivity|].
  intros sec Hsec.
  destruct (SectionFacts.section_inv lib _ _ Hsec)
    as (fig_no & fig_with & png_no & png_with & Hin & _ & _ & ->).
  rewrite Forall_forall in Hworks. destruct (Hworks _ Hin) as [Hname Htype].
  cbn [fst snd] in Hname, Htype. cbn [Report.render].
  apply is_ascii_plot_section;
    [exact Hname | apply is_ascii_b64encode | apply is_ascii_b64encode
    | now apply is_ascii_code_display].
Qed.

End Run.

End AsciiFacts.

(** ** The code shown in a section *)

Section Display.

Context {NdArray : Type}.

Lemma constructor_name_table (trace_type : string) :
  get_constructor_name trace_type = PyStr.capitalize trace_type.
Proof.
  unfold get_constructor_name, constructor_map. cbn [dict_get].
  repeat match goal with
         | |- context [String.eqb ?k trace_type] =>
             destruct (String.eqb_spec k trace_type) as [<-|_];
             [reflexivity|]
         end.
  reflexivity.
Qed.

(** X1: the table of [get_constructor_name] changes nothing: for every
    ASCII trace type the name is the trace type with its first letter put
    in upper case and the rest in lower case; it is ASCII and as long as
    the trace type. *)
Theorem get_constructor_name_is_capitalize (trace_type : string) :
  PyStr.is_ascii trace_type = true ->
  get_constructor_name trace_type = PyStr.capitalize trace_type
  /\ PyStr.is_ascii (get_constructor_name trace_type) = true
  /\ String.length (get_constructor_name trace_type) = String.length trace_type.
Proof.
  intros Hascii. split; [apply constructor_name_table|].
  split; [rewrite constructor_name_table;
          now apply AsciiFacts.is_ascii_capitalize|].
  rewrite constructor_name_table. clear Hascii.
  destruct trace_type as [|c s]; [reflexivity|].
  cbn [PyStr.capitalize String.length]. f_equal.
  induction s as [|d s IH]; [reflexivity|].
  cbn [PyStr.map_str String.length]. now rewrite IH.
Qed.

(** X2: for a trace type of the template, the code shown in the report is
    the code of [create_comprehensive_template]: the class is the one of
    [trace_constructors] and the colors are [template_colors], in the
    same order. *)
Theorem code_display_is_the_template_code (trace_type cls : string) :
  In (trace_type, PType cls) (@trace_constructors NdArray) ->
  generate_template_code_display trace_type
  = "template.data." ++ trace_type ++ " = [" ++ PyStr.nl
    ++ String.concat ""
         (map (fun color =>
                 "    go." ++ cls ++ "(marker=dict(color=" ++ PyStr.q color
                 ++ "))," ++ PyStr.nl)
            template_colors)
    ++ "]".
Proof.
  intros Hin. cbn in Hin.
  repeat (destruct Hin as [Hin | Hin]; [injection Hin as <- <-; reflexivity|]).
  destruct Hin.
Qed.

End Display.

(** X1 on a small instance. *)
Lemma get_constructor_name_is_capitalize_witness :
  get_constructor_name "histogram2dcontour" = "Histogram2dcontour".
Proof.
  exact (proj1 (get_constructor_name_is_capitalize "histogram2dcontour" eq_refl)).
Defined.

(** X2 on a small instance. *)
Lemma code_display_is_the_template_code_witness :
  generate_template_code_display "bar"
  = "template.data.bar = [" ++ PyStr.nl
    ++ "    go.Bar(marker=dict(color=" ++ PyStr.q "purple" ++ "))," ++ PyStr.nl
    ++ "    go.Bar(marker=dict(color=" ++ PyStr.q "lime" ++ "))," ++ PyStr.nl
    ++ "    go.Bar(marker=dict(color=" ++ PyStr.q "magenta" ++ "))," ++ PyStr.nl
    ++ "]".
Proof.
  apply (@code_display_is_the_template_code nat "bar" "Bar").
  right. left. reflexivity.
Defined.

(** ** Characters that are not letters *)

Module CaseFacts.
Import PyStr PyStrFacts.

Lemma cased_upper (a : ascii) : is_lower a = true -> is_upper (upper a) = true.
Proof.
  unfold upper. intros H. rewrite H. unfold is_lower, is_upper in *.
  apply andb_true_iff in H as [H1 H2].
  apply Nat.leb_le in H1. apply Nat.leb_le in H2.
  rewrite nat_ascii_embedding by lia.
  apply andb_true_iff. split; apply Nat.leb_le; lia.
Qed.

Lemma cased_lower (a : ascii) : is_upper a = true -> is_lower (lower a) = true.
Proof.
  unfold lower. intros H. rewrite H. unfold is_lower, is_upper in *.
  apply andb_true_iff in H as [H1 H2].
  apply Nat.leb_le in H1. apply Nat.leb_le in H2.
  rewrite nat_ascii_embedding by lia.
  apply andb_true_iff. split; apply Nat.leb_le; lia.
Qed.

Lemma eqb_cased (c a : ascii) :
  is_cased c = false -> is_cased a = true -> Ascii.eqb c a = false.
Proof.
  intros Hc Ha. destruct (Ascii.eqb_spec c a) as [->|]; congruence.
Qed.

(** Changing the case of a letter neither makes nor removes a
    character that is not a letter. *)
Lemma eqb_upper (c a : ascii) :
  is_cased c = false -> Ascii.eqb c (upper a) = Ascii.eqb c a.
Proof.
  intros Hc. destruct (is_lower a) eqn:E.
  - rewrite !(eqb_cased c) by
      (try assumption; unfold is_cased;
       rewrite ?(cased_upper a E), ?E, ?orb_true_r; reflexivity).
    reflexivity.
  - unfold upper. now rewrite E.
Qed.

Lemma eqb_lower (c a : ascii) :
  is_cased c = false -> Ascii.eqb c (lower a) = Ascii.eqb c a.
Proof.
  intros Hc. destruct (is_upper a) eqn:E.
  - rewrite !(eqb_cased c) by
      (try assumption; unfold is_cased;
       rewrite ?(cased_lower a E), ?E, ?orb_true_r; reflexivity).
    reflexivity.
  - unfold lower. now rewrite E.
Qed.

Lemma has_char_map_lower (c : ascii) (s : string) :
  is_cased c = false -> has_char c (map_str lower s) = has_char c s.
Proof.
  intros Hc. induction s as [|a s IH]; [reflexivity|].
  cbn [map_str has_char]. now rewrite IH, eqb_lower.
Qed.

Lemma has_char_capitalize (c : ascii) (s : string) :
  is_cased c = false -> has_char c (capitalize s) = has_char c s.
Proof.
  intros Hc. destruct s as [|a s]; [reflexivity|].
  cbn [capitalize has_char]. now rewrite has_char_map_lower, eqb_upper.
Qed.

Lemma has_char_title_from (c : ascii) (prev : bool) (s : string) :
  is_cased c = false -> has_char c (title_from prev s) = has_char c s.
Proof.
  intros Hc. revert prev. induction s as [|a s IH]; intros prev; [reflexivity|].
  cbn [title_from]. destruct (is_cased a); cbn [has_char]; rewrite IH;
    [|reflexivity].
  destruct prev; now rewrite ?eqb_lower, ?eqb_upper.
Qed.

End CaseFacts.

(** X3: the code shown for a trace type has a character that opens or
    closes a tag or starts an entity only where the trace type has it. *)
Theorem code_display_adds_no_markup (c : ascii) (trace_type : string) :
  In c ["<"; ">"; "&"]%char ->
  PyStr.has_char c (generate_template_code_display trace_type)
  = PyStr.has_char c trace_type.
Proof.
  intros Hc.
  assert (PyStr.is_cased c = false) as Hcased.
  { cbn in Hc. now repeat (destruct Hc as [<- | Hc]; [reflexivity|]). }
  unfold generate_template_code_display. cbn [fold_left].
  rewrite constructor_name_table.
  rewrite !PyStrFacts.has_char_app, (CaseFacts.has_char_capitalize c _ Hcased).
  cbn in Hc.
  repeat (destruct Hc as [<- | Hc];
          [destruct (PyStr.has_char _ trace_type); vm_compute; reflexivity|]).
  destruct Hc.
Qed.

(** X3 on a small instance. *)
Lemma code_display_adds_no_markup_witness :
  PyStr.has_char "<" (generate_template_code_display "scatter3d") = false.
Proof.
  apply (code_display_adds_no_markup "<" "scatter3d"). left. reflexivity.
Defined.

(** ** Dicts *)

Module DictFacts.




Lemma hasattr_getattr {NdArray} (v : pyobj NdArray) (name : string) :
  hasattr v name = true <-> exists a, getattr v name = Ok a.
Proof.
  unfold hasattr, getattr.
  destruct v as [| | | | | | | | cls attrs | |];
    try (split; [discriminate | intros [found Hfound]; discriminate]).
  destruct (dict_get attrs name) as [found|].
  - split; [now exists found | reflexivity].
  - split; [discriminate | intros [found Hfound]; discriminate].
Qed.

End DictFacts.

(** ** The helper functions and the example arguments *)

Section Helpers.

Context {Figure NdArray Rng : Type}.
Variable lib : @Library Figure NdArray Rng.

Local Abbreviation pyobj := (pyobj NdArray).
Local Abbreviation World := (World Rng).

(** X4: [test_trace_supports_marker_color] is true exactly when its
    argument is the string "timeline" or a class, the class (or
    [go.Bar] for "timeline") builds a trace from
    [marker=dict(color="red")], and the trace has a [marker] with a
    [color]; a constructor that raises gives false. *)
Theorem marker_color_test_true_iff (constructor : pyobj) :
  test_trace_supports_marker_color lib constructor = true
  <-> exists cls trace marker,
        (constructor = PStr "timeline" /\ cls = "Bar" \/ constructor = PType cls)
        /\ new lib cls (marker_kwargs "red") = Ok trace
        /\ getattr trace "marker" = Ok marker
        /\ hasattr marker "color" = true.
Proof.
  assert (forall cls,
            match
              try_except
                (trace <-- call lib (go cls) (marker_kwargs "red") ;;
                 (if hasattr trace "marker"
                  then marker <-- getattr trace "marker" ;;
                       Ok (hasattr marker "color")
                  else Ok false))%py
                (fun _ => Ok false)
            with
            | Ok b => b
            | Raise _ => false
            end = true
            <-> exists trace marker,
                  new lib cls (marker_kwargs "red") = Ok trace
                  /\ getattr trace "marker" = Ok marker
                  /\ hasattr marker "color" = true) as Hprobe.
  { intros cls. cbn [call go]. split.
    - destruct (new lib cls (marker_kwargs "red")) as [trace|]; cbn [rbind try_except];
        [|discriminate].
      destruct (hasattr trace "marker") eqn:Hhas; [|discriminate].
      apply DictFacts.hasattr_getattr in Hhas as [marker Hmarker].
      rewrite Hmarker. cbn [rbind]. intros Hcolor. now exists trace, marker.
    - intros (trace & marker & -> & Hmarker & Hcolor). cbn [rbind].
      assert (hasattr trace "marker" = true) as ->
        by (apply DictFacts.hasattr_getattr; now exists marker).
      now rewrite Hmarker. }
  unfold test_trace_supports_marker_color.
  destruct (eq_str constructor "timeline") eqn:Etimeline.
  - assert (constructor = PStr "timeline") as ->.
    { destruct constructor; try discriminate.
      cbn [eq_str] in Etimeline. apply String.eqb_eq in Etimeline. now subst. }
    rewrite (Hprobe "Bar"). split.
    + intros (trace & marker & H). exists "Bar", trace, marker.
      split; [now left | exact H].
    + intros (cls & trace & marker & [[_ ->] | Hcls] & H);
        [now exists trace, marker | discriminate].
  - destruct constructor as [| | | | s | | | cls | | |];
      cbn [isinstance_type try_except];
      try (split; [discriminate
                  | intros (c0 & t0 & m0 & [[H0 _] | H0] & _); discriminate]).
    + split; [discriminate|].
      intros (c0 & t0 & m0 & [[H0 _] | H0] & _); [|discriminate].
      injection H0 as ->. discriminate.
    + change (PType cls) with (@go NdArray cls). rewrite (Hprobe cls). split.
      * intros (trace & marker & H). exists cls, trace, marker.
        split; [now right | exact H].
      * intros (cls' & trace & marker & [[H _] | H] & H'); [discriminate|].
        injection H as <-. now exists trace, marker.
Qed.




End Helpers.



(** ** The world after a run *)

Module EffectFacts.
Import PyStr Report Effects RunFacts.

Section Run.

Context {Figure NdArray Rng : Type}.
Variable lib : @Library Figure NdArray Rng.

Local Abbreviation pyobj := (pyobj NdArray).
Local Abbreviation works_item := (@works_item Figure).
Local Abbreviation World := (World Rng).

Lemma world_eq (w1 w2 : World) :
  console w1 = console w2 -> rng w1 = rng w2 -> files w1 = files w2 -> w1 = w2.
Proof. destruct w1, w2. cbn. now intros -> -> ->. Qed.

Lemma main_body_world template works entry w :
  main_body lib template works entry w
  = (Ok (works ++ filter_map (outcome lib template) [entry])%list,
     after_round lib template entry w).
Proof.
  destruct entry as [px_name [[px_fn constructor] trace_type]].
  unfold main_body, after_round, eligible. cbn [filter_map outcome].
  pose proof (eligible_not_imshow lib px_name px_fn constructor trace_type) as Hne.
  destruct (can_use_discrete_colors lib px_name px_fn constructor trace_type)
    as [can_use reason].
  cbn [fst] in *. destruct can_use.
  - unfold bind at 1. rewrite create_plot_comparison_run.
    rewrite (lookup_args_static _ PNone px_name (Hne eq_refl)).
    destruct (comparison px_name px_fn template (lookup_args PNone px_name))
      as [[figs|] error]; cbn [fst].
    + rewrite bind_print. reflexivity.
    + unfold ret. now rewrite app_nil_r.
  - unfold ret. now rewrite app_nil_r.
Qed.

Lemma loop_world template entries works w :
  for_each entries (main_body lib template) works w
  = (Ok (works ++ filter_map (outcome lib template) entries)%list,
     after_loop lib template entries w).
Proof.
  revert works w. induction entries as [|entry entries IH]; intros works w.
  - cbn. unfold ret. now rewrite app_nil_r.
  - cbn [for_each]. rewrite (bind_ok _ _ _ _ _ (main_body_world _ _ _ _)), IH.
    change (entry :: entries) with ([entry] ++ entries)%list.
    now rewrite filter_map_app, app_assoc.
Qed.

Lemma outcome_eligible template entry item :
  outcome lib template entry = Some item -> eligible lib entry = true.
Proof.
  destruct entry as [px_name [[px_fn constructor] trace_type]].
  unfold outcome, eligible. now destruct (fst (can_use_discrete_colors _ _ _ _ _)).
Qed.

Lemma after_loop_parts template entries w :
  console (after_loop lib template entries w)
  = (console w ++ map (check_line (Figure := Figure))
                    (filter_map (outcome lib template) entries))%list
  /\ rng (after_loop lib template entries w)
     = draws lib (List.length (filter (eligible lib) entries)) (rng w)
  /\ files (after_loop lib template entries w) = files w.
Proof.
  revert w. induction entries as [|entry entries IH]; intros w.
  - cbn. now rewrite app_nil_r.
  - unfold after_loop in *. cbn [fold_left filter_map filter].
    destruct (IH (after_round lib template entry w)) as (Hc & Hr & Hf).
    rewrite Hc, Hr, Hf. unfold after_round.
    destruct (eligible lib entry) eqn:E.
    + destruct (outcome lib template entry) as [item|];
        cbn [console rng files printed after_draw map List.length draws app];
        rewrite <- ?app_assoc; repeat split; reflexivity.
    + destruct (outcome lib template entry) as [item|] eqn:O;
        [apply outcome_eligible in O; congruence|].
      repeat split; reflexivity.
Qed.

Lemma after_main_loop_parts template w :
  console (after_loop lib template (PX_FUNCTIONS lib) w)
  = (console w ++ map (check_line (Figure := Figure))
                    (working lib template))%list
  /\ rng (after_loop lib template (PX_FUNCTIONS lib) w)
     = draws lib (List.length (filter (eligible lib) (PX_FUNCTIONS lib))) (rng w)
  /\ files (after_loop lib template (PX_FUNCTIONS lib) w) = files w.
Proof. unfold working. apply after_loop_parts. Qed.

Lemma printed_printed (w : World) (a b : list string) :
  printed (printed w a) b = printed w (a ++ b).
Proof. unfold printed. cbn. now rewrite app_assoc. Qed.

Lemma console_shape (x b c i e k : list string) :
  ((((x ++ b) ++ c) ++ i ++ e) ++ k = x ++ b ++ c ++ i ++ e ++ k)%list.
Proof. now rewrite <- !app_assoc. Qed.

Lemma print_eq (text : string) (w : World) :
  print text w = (Ok tt, printed w [text]).
Proof. reflexivity. Qed.

Lemma main_loop_world template w :
  main_loop lib template w
  = (Ok (working lib template), after_loop lib template (PX_FUNCTIONS lib) w).
Proof. unfold main_loop, working. now rewrite loop_world. Qed.

(** [main], step by step. *)
Lemma main_eq (w : World) :
  main lib w
  = match create_comprehensive_template lib with
    | Raise e => (Raise e, printed w (firstn 3 banner))
    | Ok template =>
        let works := working lib template in
        let w1 := after_loop lib template (PX_FUNCTIONS lib) (printed w banner) in
        let w2 := printed w1 (interlude ++ map (export_line lib) works) in
        match write_text lib report_path (report_text lib template) with
        | Some e => (Raise e, w2)
        | None =>
            (Ok tt,
             printed
               (mkWorld (console w2) (rng w2)
                  ((report_path, report_text lib template) :: files w2))
               (closing (List.length works)))
        end
    end.
Proof.
  unfold main. rewrite !bind_print.
  unfold bind at 1, lift at 1.
  destruct (create_comprehensive_template lib) as [template|e].
  - rewrite !bind_print.
    rewrite (bind_ok _ _ _ _ _ (main_loop_world _ _)).
    rewrite !bind_print.
    rewrite (bind_ok _ _ _ _ _ (generate_html_content_run _ _ _)).
    fold (report_text lib template).
    unfold bind at 1, write_file at 1. fold report_path.
    rewrite !printed_printed. cbn [app]. cbv zeta.
    destruct (write_text lib report_path (report_text lib template)) as [e|].
    + reflexivity.
    + rewrite !bind_print, print_eq, !printed_printed. reflexivity.
  - rewrite !printed_printed. reflexivity.
Qed.

End Run.

End EffectFacts.

Section Runs.

Context {Figure NdArray Rng : Type}.
Variable lib : @Library Figure NdArray Rng.

Local Abbreviation pyobj := (pyobj NdArray).
Local Abbreviation works_item := (@works_item Figure).
Local Abbreviation World := (World Rng).

(** X8: when the template is built and the file is written, [main] returns
    and leaves this world: on the console its banner, one line for each
    plot kind that works, in the order of the table, the two lines before
    the export, one line for each export, and the closing lines with the
    number of plot kinds that work; one more file, the report; and the
    generator after one draw for each entry that passes
    [can_use_discrete_colors]. *)
Theorem main_prints_and_writes (template : pyobj) (w : World) :
  create_comprehensive_template lib = Ok template ->
  write_text lib Report.report_path (Report.report_text lib template) = None ->
  main lib w
  = (Ok tt,
     mkWorld
       (console w ++ Effects.banner
        ++ map (Effects.check_line (Figure := Figure))
             (Report.working lib template)
        ++ Effects.interlude
        ++ map (Report.export_line lib) (Report.working lib template)
        ++ Effects.closing (List.length (Report.working lib template)))%list
       (Effects.draws lib
          (List.length (filter (Effects.eligible lib) (PX_FUNCTIONS lib)))
          (rng w))
       ((Report.report_path, Report.report_text lib template) :: files w)).
Proof.
  intros Htemplate Hwrite. rewrite EffectFacts.main_eq, Htemplate. cbv zeta.
  rewrite Hwrite. f_equal.
  destruct (EffectFacts.after_main_loop_parts lib template
              (Report.printed w Effects.banner)) as (Hc & Hr & Hf).
  apply EffectFacts.world_eq.
  - cbn [console Report.printed]. rewrite Hc. cbn [console Report.printed].
    apply EffectFacts.console_shape.
  - cbn [rng Report.printed]. exact Hr.
  - cbn [files Report.printed]. now rewrite Hf.
Qed.

(** X10: when the loop of [main] returns, it has drawn from the
    generator once for each entry that passes [can_use_discrete_colors],
    whether the plot kind has example arguments or not, and these are at
    most 31 of the 40 entries; [create_plot_comparison], when it returns,
    has drawn once.  The loop has printed one line for each plot kind it
    keeps and has written no file. *)
Theorem main_loop_draws_once_per_eligible_entry
  (template : pyobj) (w w' : World) (works : list works_item) :
  main_loop lib template w = (Ok works, w') ->
  works = Report.working lib template
  /\ rng w'
     = Effects.draws lib
         (List.length (filter (Effects.eligible lib) (PX_FUNCTIONS lib)))
         (rng w)
  /\ List.length (filter (Effects.eligible lib) (PX_FUNCTIONS lib)) <= 31
  /\ console w'
     = (console w ++ map (Effects.check_line (Figure := Figure))
                       (Report.working lib template))%list
  /\ files w' = files w
  /\ forall px_name px_fn constructor trace_type w0 out w1,
       create_plot_comparison lib px_name px_fn constructor trace_type
         template w0
       = (Ok out, w1) ->
       rng w1 = snd (np_random_rand lib 10 10 (rng w0))
       /\ console w1 = console w0 /\ files w1 = files w0.
Proof.
  rewrite EffectFacts.main_loop_world. intros Hloop.
  pose proof (f_equal snd Hloop) as Hw. apply (f_equal fst) in Hloop.
  cbn [fst snd] in Hloop, Hw. injection Hloop as <-. rewrite <- Hw.
  destruct (EffectFacts.after_main_loop_parts lib template w)
    as (Hc & Hr & Hf).
  split; [reflexivity|].
  split; [exact Hr|]. split; [|split; [exact Hc|split; [exact Hf|]]].
  - transitivity
      (List.length
         (filter (fun entry => negb (set_mem (fst entry) no_discrete))
            (PX_FUNCTIONS lib))); [|vm_compute; lia].
    assert (forall entries : list (string * (px_function * pyobj * string)),
              List.length (filter (Effects.eligible lib) entries)
              <= List.length
                   (filter (fun entry => negb (set_mem (fst entry) no_discrete))
                      entries)) as Hle; [|apply Hle].
    induction entries as [|[px_name [[px_fn constructor] trace_type]] entries IH];
      [reflexivity|].
    cbn [filter fst]. unfold Effects.eligible at 1, can_use_discrete_colors.
    destruct (set_mem px_name no_discrete); cbn [negb fst]; [exact IH|].
    destruct (negb (test_trace_supports_marker_color lib constructor));
      cbn [fst List.length]; lia.
  - intros px_name px_fn constructor trace_type w0 out w1.
    rewrite RunFacts.create_plot_comparison_run. intros H.
    apply (f_equal snd) in H. cbn [snd] in H. rewrite <- H.
    repeat split; reflexivity.
Qed.

(** X11: for a list of items whose plot kinds and trace types are ASCII,
    [generate_html_content] returns this page: the head, the sections of
    the items whose two images are exported, in the order of the list,
    and the tail, so the head and the tail alone for the empty list; the
    page is ASCII text.  It prints one text for each item, in that order,
    and touches neither the files nor the generator. *)
Theorem generate_html_content_returns_page (works : list works_item) (w : World) :
  Forall (fun item : works_item =>
            PyStr.is_ascii (fst (fst item)) = true
            /\ PyStr.is_ascii (snd item) = true) works ->
  generate_html_content lib works w
  = (Ok (html_head
         ++ Report.sections_text (Report.filter_map (Report.exported lib) works)
         ++ html_tail),
     mkWorld (console w ++ map (Report.export_line lib) works)%list
       (rng w) (files w))
  /\ PyStr.is_ascii
       (html_head
        ++ Report.sections_text (Report.filter_map (Report.exported lib) works)
        ++ html_tail)
     = true
  /\ fst (generate_html_content lib [] w) = Ok (html_head ++ html_tail).
Proof.
  intros Hascii. rewrite !RunFacts.generate_html_content_run.
  split; [reflexivity|]. split; [|reflexivity].
  now apply AsciiFacts.is_ascii_page.
Qed.

End Runs.

(** X8 on a small instance. *)
Lemma main_prints_and_writes_witness :
  main Demo.lib Demo.world
  = (Ok tt,
     mkWorld
       ([] ++ Effects.banner
        ++ map (Effects.check_line (Figure := string))
             (Report.working Demo.lib Demo.template)
        ++ Effects.interlude
        ++ map (Report.export_line Demo.lib)
             (Report.working Demo.lib Demo.template)
        ++ Effects.closing
             (List.length (Report.working Demo.lib Demo.template)))%list
       (Effects.draws Demo.lib
          (List.length (filter (Effects.eligible Demo.lib)
                          (PX_FUNCTIONS Demo.lib)))
          0)
       [(Report.report_path, Report.report_text Demo.lib Demo.template)]).
Proof.
  apply (main_prints_and_writes Demo.lib Demo.template Demo.world).
  - vm_compute. reflexivity.
  - reflexivity.
Defined.

(** X10 on a small instance. *)
Lemma main_loop_draws_once_per_eligible_entry_witness :
  rng (snd (main_loop Demo.lib Demo.template Demo.world)) = 31.
Proof.
  assert (main_loop Demo.lib Demo.template Demo.world
          = (Ok (Report.working Demo.lib Demo.template),
             snd (main_loop Demo.lib Demo.template Demo.world))) as Hloop
    by (vm_compute; reflexivity).
  rewrite (proj1 (proj2 (main_loop_draws_once_per_eligible_entry Demo.lib
                           Demo.template Demo.world _ _ Hloop))).
  vm_compute. reflexivity.
Defined.

(** X11 on a small instance. *)
Lemma generate_html_content_returns_page_witness :
  fst (generate_html_content Demo.lib [("bar", ("bar", "bar+template"), "bar")]
         Demo.world)
  = Ok (html_head
        ++ Report.sections_text
             (Report.filter_map (Report.exported Demo.lib)
                [("bar", ("bar", "bar+template"), "bar")])
        ++ html_tail).
Proof.
  assert (Forall (fun item : @works_item string =>
                    PyStr.is_ascii (fst (fst item)) = true
                    /\ PyStr.is_ascii (snd item) = true)
            [("bar", ("bar", "bar+template"), "bar")]) as Hascii
    by (constructor; [split; reflexivity | constructor]).
  rewrite (proj1 (generate_html_content_returns_page Demo.lib _ Demo.world
                    Hascii)).
  reflexivity.
Defined.

(** ** Loops that return *)

Module LoopFacts.
Import Report Effects.

(** When a loop returns, each of its rounds returned. *)
Lemma rfor_each_ok_inv {A S} (xs : list A) (body : S -> A -> result S)
  (acc r : S) :
  rfor_each xs body acc = Ok r ->
  forall x, In x xs -> exists acc' r', body acc' x = Ok r'.
Proof.
  revert acc. induction xs as [|x0 xs IH]; intros acc Hok x Hin;
    [destruct Hin|].
  cbn [rfor_each] in Hok. unfold rbind in Hok.
  destruct (body acc x0) as [acc1|] eqn:E; [|discriminate].
  destruct Hin as [<- | Hin]; [now exists acc, acc1 | now apply (IH acc1)].
Qed.

Lemma subsequence_refl {A} (l : list A) : subsequence l l.
Proof. induction l; constructor; assumption. Qed.

Lemma subsequence_trans {A} (xs ys zs : list A) :
  subsequence xs ys -> subsequence ys zs -> subsequence xs zs.
Proof.
  intros Hxy Hyz. revert xs Hxy.
  induction Hyz as [|z ys zs Hyz IH|z ys zs Hyz IH]; intros xs Hxy.
  - exact Hxy.
  - constructor. now apply IH.
  - inversion Hxy; subst; constructor; now apply IH.
Qed.

(** The names of what [filter_map] keeps are names of the list, in
    their order. *)
Lemma filter_map_subsequence {A B} (f : A -> option B)
  (name_a : A -> string) (name_b : B -> string) (l : list A) :
  (forall x y, f x = Some y -> name_b y = name_a x) ->
  subsequence (map name_b (filter_map f l)) (map name_a l).
Proof.
  intros Hname. induction l as [|x l IH]; [constructor|].
  cbn [filter_map map]. destruct (f x) as [y|] eqn:E.
  - cbn [map]. rewrite (Hname _ _ E). now constructor.
  - now constructor.
Qed.

End LoopFacts.

Section Order.

Context {Figure NdArray Rng : Type}.
Variable lib : @Library Figure NdArray Rng.

Local Abbreviation pyobj := (pyobj NdArray).
Local Abbreviation works_item := (@works_item Figure).
Local Abbreviation World := (World Rng).

(** X12: the plot kinds that the loop of [main] keeps are plot kinds of the
    table in the order of the table, and so are the plot kinds of the
    sections that [generate_html_content] makes of them: no plot kind
    comes twice and none is moved. *)
Theorem main_keeps_the_order_of_the_table (template : pyobj) (w : World) :
  exists works w',
    main_loop lib template w = (Ok works, w')
    /\ Effects.subsequence (map (fun item : works_item => fst (fst item)) works)
         (keys (PX_FUNCTIONS lib))
    /\ Effects.subsequence
         (map Report.section_name (Report.filter_map (Report.exported lib) works))
         (map (fun item : works_item => fst (fst item)) works)
    /\ Effects.subsequence
         (map Report.section_name (Report.filter_map (Report.exported lib) works))
         (keys (PX_FUNCTIONS lib)).
Proof.
  exists (Report.working lib template),
         (Effects.after_loop lib template (PX_FUNCTIONS lib) w).
  split; [apply EffectFacts.main_loop_world|].
  assert (Effects.subsequence
            (map (fun item : works_item => fst (fst item))
               (Report.working lib template))
            (keys (PX_FUNCTIONS lib))) as Hworks.
  { unfold Report.working, keys.
    apply LoopFacts.filter_map_subsequence.
    intros entry item. apply SectionFacts.outcome_name. }
  assert (Effects.subsequence
            (map Report.section_name
               (Report.filter_map (Report.exported lib)
                  (Report.working lib template)))
            (map (fun item : works_item => fst (fst item))
               (Report.working lib template))) as Hsecs.
  { apply LoopFacts.filter_map_subsequence.
    intros item sec. apply SectionFacts.exported_name. }
  split; [exact Hworks|]. split; [exact Hsecs|].
  exact (LoopFacts.subsequence_trans _ _ _ Hsecs Hworks).
Qed.

(** X13: [create_comprehensive_template] returns a template only when each
    of the 13 constructors built a trace for each of the three colors and
    the merge returned it: one constructor that raises makes the whole
    construction raise. *)
Theorem template_is_built_only_from_all_traces (template : pyobj) :
  create_comprehensive_template lib = Ok template ->
  (forall trace_type constructor color,
     In (trace_type, constructor) trace_constructors ->
     In color template_colors ->
     exists trace, call lib constructor (marker_kwargs color) = Ok trace)
  /\ exists custom_template,
       merge_templates lib (pio_templates_plotly lib) custom_template
       = Ok template.
Proof.
  unfold create_comprehensive_template. intros Hok. unfold rbind at 1 in Hok.
  match type of Hok with
  | match ?loop with Ok _ => _ | Raise _ => _ end = _ =>
      destruct loop as [custom|] eqn:Hloop; [|discriminate]
  end.
  split; [|now exists custom].
  intros trace_type constructor color Hin Hcolor.
  destruct (LoopFacts.rfor_each_ok_inv _ _ _ _ Hloop _ Hin)
    as (acc & r & Hround).
  cbn beta iota in Hround. unfold rbind at 1 in Hround.
  match type of Hround with
  | match ?inner with Ok _ => _ | Raise _ => _ end = _ =>
      destruct inner as [trace_list|] eqn:Hinner; [|discriminate]
  end.
  destruct (LoopFacts.rfor_each_ok_inv _ _ _ _ Hinner _ Hcolor)
    as (acc' & r' & Hcall).
  cbn beta in Hcall. unfold rbind in Hcall.
  destruct (call lib constructor (marker_kwargs color)) as [trace|];
    [now exists trace | discriminate].
Qed.

End Order.

(** X13 on a small instance. *)
Lemma template_is_built_only_from_all_traces_witness :
  (forall trace_type constructor color,
     In (trace_type, constructor) trace_constructors ->
     In color template_colors ->
     exists trace, call Demo.lib constructor (marker_kwargs color) = Ok trace)
  /\ exists custom_template,
       merge_templates Demo.lib (pio_templates_plotly Demo.lib) custom_template
       = Ok Demo.template.
Proof.
  apply (template_is_built_only_from_all_traces Demo.lib Demo.template).
  vm_compute. reflexivity.
Defined.

(** ** Sections of items without a tag character *)

Module TagFacts.
Import PyStr Report Effects PyStrFacts RunFacts.

Lemma plot_section_texts px_name img_no img_with template_code :
  plot_section px_name img_no img_with template_code
  = text1 ++ title (replace_char "_" " " px_name) ++ text2 ++ img_no
    ++ text3 ++ px_name ++ text4 ++ img_with
    ++ text3 ++ px_name ++ text5 ++ template_code ++ text6.
Proof.
  unfold plot_section, q. rewrite !append_assoc. reflexivity.
Qed.

Lemma has_char_replace (c a b : ascii) (s : string) :
  Ascii.eqb c a = false -> Ascii.eqb c b = false ->
  has_char c (replace_char a b s) = has_char c s.
Proof.
  intros Ha Hb. induction s as [|d s IH]; [reflexivity|].
  unfold replace_char in *. cbn [map_str has_char]. rewrite IH.
  destruct (Ascii.eqb_spec d a) as [->|]; [now rewrite Ha, Hb | reflexivity].
Qed.

Lemma has_tag_title (px_name : string) :
  has_char "<" (title (replace_char "_" " " px_name)) = has_char "<" px_name.
Proof.
  unfold title. rewrite CaseFacts.has_char_title_from by reflexivity.
  now apply has_char_replace.
Qed.

Lemma has_tag_code (trace_type : string) :
  has_char "<" (generate_template_code_display trace_type)
  = has_char "<" trace_type.
Proof.
  unfold generate_template_code_display, get_constructor_name.
  cbn [fold_left].
  assert (has_char "<"
            match dict_get constructor_map trace_type with
            | Some name => name
            | None => capitalize trace_type
            end
          = has_char "<" trace_type) as Hname.
  { destruct (dict_get constructor_map trace_type) as [name|] eqn:E;
      [|now apply CaseFacts.has_char_capitalize].
    apply SectionFacts.dict_get_In in E. cbn in E.
    repeat (destruct E as [E | E]; [injection E as <- <-; reflexivity|]).
    destruct E. }
  rewrite !has_char_app, Hname.
  destruct (has_char "<" trace_type); vm_compute; reflexivity.
Qed.

(** The fixed texts of a section hold the opening tag once, in the
    first of them, and no occurrence of it can start in one of them and
    end after it. *)
Lemma texts_checked :
  (boundary_free section_open text1 = true /\ count_sub section_open text1 = 1)
  /\ (boundary_free section_open text2 = true /\ count_sub section_open text2 = 0)
  /\ (boundary_free section_open text3 = true /\ count_sub section_open text3 = 0)
  /\ (boundary_free section_open text4 = true /\ count_sub section_open text4 = 0)
  /\ (boundary_free section_open text5 = true /\ count_sub section_open text5 = 0)
  /\ (boundary_free section_open text6 = true /\ count_sub section_open text6 = 0).
Proof. repeat split; vm_compute; reflexivity. Qed.

Lemma count_render_tag_free sec rest :
  tag_free sec ->
  count_sections (render sec ++ rest) = 1 + count_sections rest.
Proof.
  destruct sec as [[[px_name img_no] img_with] trace_type].
  intros (Hname & Htype & Hno & Hwith).
  destruct texts_checked
    as ((F1 & C1) & (F2 & C2) & (F3 & C3) & (F4 & C4) & (F5 & C5) & (F6 & C6)).
  unfold count_sections, render. rewrite plot_section_texts, !append_assoc.
  change section_open
    with (String "<" ("div class=" ++ q "plot-section" ++ ">")) in *.
  rewrite (count_sub_app _ text1 _ F1), C1.
  rewrite count_sub_skip by now rewrite has_tag_title.
  rewrite (count_sub_app _ text2 _ F2), C2.
  rewrite count_sub_skip by assumption.
  rewrite (count_sub_app _ text3 _ F3), C3.
  rewrite count_sub_skip by assumption.
  rewrite (count_sub_app _ text4 _ F4), C4.
  rewrite count_sub_skip by assumption.
  rewrite (count_sub_app _ text3 _ F3), C3.
  rewrite count_sub_skip by assumption.
  rewrite (count_sub_app _ text5 _ F5), C5.
  rewrite count_sub_skip by now rewrite has_tag_code.
  rewrite (count_sub_app _ text6 _ F6), C6.
  reflexivity.
Qed.

Lemma count_sections_tag_free secs rest :
  Forall tag_free secs ->
  count_sections (sections_text secs ++ rest)
  = List.length secs + count_sections rest.
Proof.
  induction 1 as [|sec secs Hsec _ IH]; [reflexivity|].
  cbn [sections_text fold_right List.length]. fold (sections_text secs).
  rewrite append_assoc, (count_render_tag_free _ _ Hsec), IH. lia.
Qed.

End TagFacts.

Section Tags.

Context {Figure NdArray Rng : Type}.
Variable lib : @Library Figure NdArray Rng.

Local Abbreviation works_item := (@works_item Figure).
Local Abbreviation World := (World Rng).

(** X14: [generate_html_content] escapes nothing, but when no plot kind and
    no trace type of the list has the character that opens a tag, the
    page has exactly one section tag for each item whose two images are
    exported. *)
Theorem tag_free_items_make_one_section_each
  (works : list works_item) (w : World) :
  (forall px_name figs trace_type,
     In (px_name, figs, trace_type) works ->
     PyStr.has_char "<" px_name = false
     /\ PyStr.has_char "<" trace_type = false) ->
  exists text w',
    generate_html_content lib works w = (Ok text, w')
    /\ Report.count_sections text
       = List.length (Report.filter_map (Report.exported lib) works).
Proof.
  intros Hfree. eexists _, _.
  split; [apply RunFacts.generate_html_content_run|].
  assert (Forall Effects.tag_free
            (Report.filter_map (Report.exported lib) works)) as Hsecs.
  { apply Forall_forall. intros sec Hsec.
    destruct (SectionFacts.section_inv lib _ _ Hsec)
      as (fig_no & fig_with & png_no & png_with & Hin & _ & _ & ->).
    destruct (Hfree _ _ _ Hin) as [Hname Htype].
    cbn [Effects.tag_free]. repeat split; try assumption;
      now apply Base64Facts.b64encode_has_char. }
  set (m := String "<" ("div class=" ++ PyStr.q "plot-section" ++ ">")).
  assert (PyStr.boundary_free m html_head = true
          /\ PyStr.count_sub m html_head = 0) as [Hhead Hzero]
    by exact (TextFacts.marker_head
                ("div class=" ++ PyStr.q "plot-section" ++ ">")
                (fun _ => 1) SectionFacts.section_open_marker).
  assert (PyStr.count_sub m html_tail = 0) as Htail
    by exact (TextFacts.marker_tail
                ("div class=" ++ PyStr.q "plot-section" ++ ">")
                (fun _ => 1) SectionFacts.section_open_marker).
  assert (PyStr.count_sub m
            (Report.sections_text
               (Report.filter_map (Report.exported lib) works)
             ++ html_tail)
          = List.length (Report.filter_map (Report.exported lib) works)
            + PyStr.count_sub m html_tail) as Hcount
    by exact (TagFacts.count_sections_tag_free _ html_tail Hsecs).
  change (PyStr.count_sub m
            (html_head
             ++ Report.sections_text
                  (Report.filter_map (Report.exported lib) works)
             ++ html_tail)
          = List.length (Report.filter_map (Report.exported lib) works)).
  rewrite (PyStrFacts.count_sub_app m _ _ Hhead), Hzero, Hcount, Htail. lia.
Qed.

End Tags.

(** X14 on a small instance. *)
Lemma tag_free_items_make_one_section_each_witness :
  exists text w',
    generate_html_content Demo.lib [("bar", ("bar", "bar+template"), "bar")]
      Demo.world
    = (Ok text, w')
    /\ Report.count_sections text
       = List.length
           (Report.filter_map (Report.exported Demo.lib)
              [("bar", ("bar", "bar+template"), "bar")]).
Proof.
  apply (tag_free_items_make_one_section_each Demo.lib
           [("bar", ("bar", "bar+template"), "bar")] Demo.world).
  intros px_name figs trace_type [Hin | []].
  injection Hin as <- _ <-. split; reflexivity.
Defined.
